(** * Rent accessibility pipeline of [app.py]

    A shallow embedding of the data pipeline of the Streamlit script
    [src/app.py]: [load_data] (year filter, numeric coercion, [dropna],
    geometry decoding), the criteria filter, the rent estimate, the
    per-neighbourhood aggregation and the loop that turns every
    neighbourhood into a polygon.

    Conventions.
    - A pandas [DataFrame] is a list of rows, in index order.
    - A float64 cell is a primitive [float]; Python's [int] is [Z].
    - A Python [str] is a [string] holding its UTF-8 bytes; comparing the
      bytes lexicographically is comparing the code points.
    - Code that can raise returns a [result]; [try]/[except] is a match on
      the exception.
    - [pd.to_numeric] on one text cell and [json.loads] are library code:
      they are the two fields of the class [Decoders]. The module [Ref]
      gives an executable instance for the notation the dataset uses. *)

From Stdlib Require Import ZArith List String Ascii Bool Floats Uint63 Lia.
From Stdlib Require Import Sorted Permutation.
Import ListNotations.

Set Warnings "-register-all".
Local Open Scope Z_scope.
Local Open Scope list_scope.

(** ** Python exceptions and results *)

Inductive exn : Type :=
| JSONDecodeError
| TypeError
| KeyError
| IndexError.

Inductive result (A : Type) : Type :=
| Ok (a : A)
| Raise (e : exn).

Arguments Ok {A} a.
Arguments Raise {A} e.

Definition bind {A B : Type} (r : result A) (k : A -> result B) : result B :=
  match r with
  | Ok a => k a
  | Raise e => Raise e
  end.

Notation "x <- r ;; k" := (bind r (fun x => k))
  (at level 61, r at next level, right associativity).

(** [[f(x) for x in l]]: the first exception ends the comprehension. *)
Fixpoint comprehension {A B : Type} (f : A -> result B) (l : list A)
  : result (list B) :=
  match l with
  | [] => Ok []
  | x :: t => y <- f x ;; ys <- comprehension f t ;; Ok (y :: ys)
  end.

(** ** Python objects produced by [json.loads] *)

Inductive pyobj : Type :=
| PyNone
| PyBool (b : bool)
| PyInt (z : Z)
| PyFloat (f : float)
| PyStr (s : string)
| PyList (l : list pyobj)
| PyDict (kv : list (string * pyobj)).

Definition char_str (c : ascii) : pyobj := PyStr (String c EmptyString).

Fixpoint dict_get {V : Type} (d : list (string * V)) (k : string) : result V :=
  match d with
  | [] => Raise KeyError
  | (k', v) :: t => if String.eqb k' k then Ok v else dict_get t k
  end.

(** [o[k]] for a text key [k]. *)
Definition getitem_key (o : pyobj) (k : string) : result pyobj :=
  match o with
  | PyDict kv => dict_get kv k
  | _ => Raise TypeError
  end.

(** [o[i]] for a non-negative integer [i]. The keys of a decoded JSON
    object are text, so an integer is never one of them. *)
Definition getitem_int (o : pyobj) (i : nat) : result pyobj :=
  match o with
  | PyList l =>
      match nth_error l i with
      | Some v => Ok v
      | None => Raise IndexError
      end
  | PyStr s =>
      match String.get i s with
      | Some c => Ok (char_str c)
      | None => Raise IndexError
      end
  | PyDict _ => Raise KeyError
  | PyNone | PyBool _ | PyInt _ | PyFloat _ => Raise TypeError
  end.

(** [for x in o]. *)
Definition py_iter (o : pyobj) : result (list pyobj) :=
  match o with
  | PyList l => Ok l
  | PyStr s => Ok (map char_str (list_ascii_of_string s))
  | PyDict kv => Ok (map (fun p => PyStr (fst p)) kv)
  | PyNone | PyBool _ | PyInt _ | PyFloat _ => Raise TypeError
  end.

(** [pd.isna] on one cell of an object column. *)
Definition isna (o : pyobj) : bool :=
  match o with
  | PyNone => true
  | PyFloat f => PrimFloat.is_nan f
  | _ => false
  end.

(** ** Numbers *)

(** A Python [int] widened to float64, as numpy does when an integer meets
    a float64 column. Exact below 2^53, which is far above what the two
    widgets allow (10000 and 200). *)
Definition float_of_Z (z : Z) : float :=
  if z <? 0 then PrimFloat.opp (PrimFloat.of_uint63 (Uint63.of_Z (- z)))
  else PrimFloat.of_uint63 (Uint63.of_Z z).

(** Order of [sort_values] on a float64 key: NaN goes last. *)
Definition float_le_na_last (x y : float) : bool :=
  if PrimFloat.is_nan y then true
  else if PrimFloat.is_nan x then false
  else PrimFloat.leb x y.

(** ** Text *)

(** [s.replace(',', '.')] *)
Fixpoint replace_comma (s : string) : string :=
  match s with
  | EmptyString => EmptyString
  | String c t =>
      String (if Ascii.eqb c ","%char then "."%char else c) (replace_comma t)
  end.

(** [astype(str)] on one cell read from the CSV text: a cell keeps its
    text, a missing cell becomes the text of NaN. (Where [read_csv] had
    already turned the column into numbers, the text is the one Python
    prints for the number, which coerces back to that number.) *)
Definition astype_str (cell : option string) : string :=
  match cell with
  | Some s => s
  | None => "nan"%string
  end.

(** ** Sorting *)

Section StableSort.
Context {A : Type} (le : A -> A -> bool).

Fixpoint insert_sorted (x : A) (l : list A) : list A :=
  match l with
  | [] => [x]
  | y :: t => if le x y then x :: l else y :: insert_sorted x t
  end.

(** Stable: an element goes before the first later element it does not
    exceed. *)
Fixpoint stable_sort (l : list A) : list A :=
  match l with
  | [] => []
  | x :: t => insert_sorted x (stable_sort t)
  end.

End StableSort.

(** Sorted distinct group keys, as [groupby] enumerates them. *)
Fixpoint insert_key (k : string) (l : list string) : list string :=
  match l with
  | [] => [k]
  | h :: t =>
      match String.compare k h with
      | Lt => k :: l
      | Eq => l
      | Gt => h :: insert_key k t
      end
  end.

Definition sorted_keys (l : list string) : list string :=
  fold_right insert_key [] l.

(** ** The data frame *)

(** One row of the frame. [R] is the type of the three rent cells (text as
    read, then float64) and [G] the type of the column [geo_points] (absent,
    then a decoded object). A cell of [nom_quartier] or [geo_shape] can be
    missing (NaN); [annee] and [nb_pieces] are integer columns. The
    columns the script never reads are left out. *)
Record row (R G : Type) : Type := mk_row {
  annee : Z;
  nom_quartier : option string;
  nb_pieces : Z;
  epoque_construction : string;
  type_location : string;
  loyer_ref : R;
  loyer_majore : R;
  loyer_minore : R;
  geo_shape : option string;
  geo_points : G
}.

Arguments mk_row {R G}.
Arguments annee {R G} r.
Arguments nom_quartier {R G} r.
Arguments nb_pieces {R G} r.
Arguments epoque_construction {R G} r.
Arguments type_location {R G} r.
Arguments loyer_ref {R G} r.
Arguments loyer_majore {R G} r.
Arguments loyer_minore {R G} r.
Arguments geo_shape {R G} r.
Arguments geo_points {R G} r.

(** Rows as [pd.read_csv] and [rename] give them. *)
Definition csv_row : Type := row (option string) unit.
(** Rows that [load_data] returns. *)
Definition data_row : Type := row float pyobj.

(** What [requests.get] and [pd.read_csv] left: a failed request, a body
    that could not be read as the expected table, or the table. *)
Inductive response : Type :=
| RequestFailed
| ReadFailed
| Frame (df : list csv_row).

Inductive message : Type :=
| msg_no_data_2025      (* line 53 *)
| msg_load_error        (* line 74 *)
| msg_unexpected        (* line 77 *)
| msg_no_match          (* line 137 *)
| msg_unavailable.      (* line 204 *)

Inductive signal : Type :=
| Warning (m : message)
| Error (m : message).

(** The two library decoders. [to_numeric s] is [pd.to_numeric] with
    [errors='coerce'] on the text [s]: NaN when [s] is not a number; on a
    column it coerces each cell on its own. [json_loads s] is [None] when
    [json.loads] raises [JSONDecodeError]. *)
Class Decoders : Type := {
  to_numeric : string -> float;
  json_loads : string -> option pyobj
}.

Section LoadData.
Context {D : Decoders}.

(** [df[df['annee'] == 2025]] *)
Definition filter_annee {R G : Type} (df : list (row R G)) : list (row R G) :=
  filter (fun r => annee r =? 2025) df.

(** [pd.to_numeric(col.astype(str).str.replace(',', '.'), errors='coerce')]
    on one cell. *)
Definition coerce_loyer (cell : option string) : float :=
  to_numeric (replace_comma (astype_str cell)).

(** The loop over [cols_loyer]. *)
Definition coerce_loyers (r : csv_row) : row float unit :=
  mk_row (annee r) (nom_quartier r) (nb_pieces r) (epoque_construction r)
    (type_location r) (coerce_loyer (loyer_ref r))
    (coerce_loyer (loyer_majore r)) (coerce_loyer (loyer_minore r))
    (geo_shape r) tt.

Definition is_missing {A : Type} (cell : option A) : bool :=
  match cell with
  | Some _ => false
  | None => true
  end.

(** [dropna(subset=cols_loyer + ['geo_shape', 'nom_quartier'])] keeps the
    rows with none of the five cells missing. *)
Definition complete {G : Type} (r : row float G) : bool :=
  negb (PrimFloat.is_nan (loyer_ref r)) &&
  negb (PrimFloat.is_nan (loyer_majore r)) &&
  negb (PrimFloat.is_nan (loyer_minore r)) &&
  negb (is_missing (geo_shape r)) &&
  negb (is_missing (nom_quartier r)).

(** [json.loads(x)]: a cell that is not text raises [TypeError]. *)
Definition loads (x : option string) : result pyobj :=
  match x with
  | None => Raise TypeError
  | Some s =>
      match json_loads s with
      | Some o => Ok o
      | None => Raise JSONDecodeError
      end
  end.

(** Lines 63-67. *)
Definition safe_json_load (x : option string) : result pyobj :=
  match (o <- loads x ;; getitem_key o "coordinates") with
  | Ok c => Ok c
  | Raise JSONDecodeError | Raise TypeError | Raise KeyError => Ok PyNone
  | Raise e => Raise e
  end.

(** [df['geo_points'] = df['geo_shape'].apply(safe_json_load)] *)
Definition with_geo_points (r : row float unit) : result data_row :=
  g <- safe_json_load (geo_shape r) ;;
  Ok (mk_row (annee r) (nom_quartier r) (nb_pieces r) (epoque_construction r)
        (type_location r) (loyer_ref r) (loyer_majore r) (loyer_minore r)
        (geo_shape r) g).

(** The body of the [try], for a table that was read. *)
Definition clean (df : list csv_row) : result (list data_row * list signal) :=
  let df := filter_annee df in
  match df with
  | [] => Ok ([], [Warning msg_no_data_2025])
  | _ =>
      let df := map coerce_loyers df in
      let df := filter complete df in
      df <- comprehension with_geo_points df ;;
      let df := filter (fun r => negb (isna (geo_points r))) df in
      Ok (df, [])
  end.

(** [load_data]: the frame returned and what was shown. Any exception of
    the body is caught at lines 73-78. *)
Definition load_data (src : response) : list data_row * list signal :=
  match src with
  | RequestFailed => ([], [Error msg_load_error])
  | ReadFailed => ([], [Error msg_unexpected])
  | Frame df =>
      match clean df with
      | Ok out => out
      | Raise _ => ([], [Error msg_unexpected])
      end
  end.

End LoadData.

(** ** The criteria and the estimate *)

(** The sidebar inputs (lines 87-121). *)
Record criteria : Type := mk_criteria {
  budget : Z;
  surface : Z;
  type_loc : string;
  epoque_selection : list string;
  loyer_a_utiliser : string
}.

Inductive loyer_col : Type :=
| col_loyer_ref
| col_loyer_majore
| col_loyer_minore.

Definition col_loyer_map : list (string * loyer_col) :=
  [ ("Loyers de référence majorés"%string, col_loyer_majore);
    ("Loyers de référence"%string, col_loyer_ref);
    ("Loyers de référence minorés"%string, col_loyer_minore) ].

(** [row[col]] for one of the three rent columns. *)
Definition column {G : Type} (col : loyer_col) (r : row float G) : float :=
  match col with
  | col_loyer_ref => loyer_ref r
  | col_loyer_majore => loyer_majore r
  | col_loyer_minore => loyer_minore r
  end.

(** Lines 131-134. *)
Definition df_filtered (c : criteria) (data : list data_row) : list data_row :=
  filter (fun r =>
            String.eqb (type_location r) (type_loc c) &&
            existsb (String.eqb (epoque_construction r)) (epoque_selection c))
         data.

(** A row with the two columns of lines 139-140. *)
Record est_row : Type := mk_est_row {
  base : data_row;
  loyer_estime : float;
  dans_le_budget : bool
}.

Definition estimate_row (c : criteria) (col : loyer_col) (r : data_row)
  : est_row :=
  let loyer := PrimFloat.mul (column col r) (float_of_Z (surface c)) in
  mk_est_row r loyer (PrimFloat.leb loyer (float_of_Z (budget c))).

Definition estimate (c : criteria) (col : loyer_col) (df : list data_row)
  : list est_row :=
  map (estimate_row c col) df.

(** ** Aggregation by neighbourhood *)

Definition named (k : string) (r : est_row) : bool :=
  match nom_quartier (base r) with
  | Some n => String.eqb n k
  | None => false
  end.

Definition names (df : list est_row) : list string :=
  flat_map (fun r => match nom_quartier (base r) with
                     | Some n => [n]
                     | None => []
                     end) df.

(** [df.groupby('nom_quartier')]: the keys ascending, each with its rows in
    frame order; rows without a key belong to no group. *)
Definition groupby_nom_quartier (df : list est_row)
  : list (string * list est_row) :=
  map (fun k => (k, filter (named k) df)) (sorted_keys (names df)).

(** Order of [sort_values(['nb_pieces', 'loyer_estime'])]. *)
Definition row_le (r1 r2 : est_row) : bool :=
  (nb_pieces (base r1) <? nb_pieces (base r2)) ||
  ((nb_pieces (base r1) =? nb_pieces (base r2)) &&
   float_le_na_last (loyer_estime r1) (loyer_estime r2)).

(** The values that one line of the popup shows (lines 152-156). *)
Record line_item : Type := mk_line_item {
  item_nb_pieces : Z;
  item_epoque : string;
  item_loyer_m2 : float;
  item_loyer_estime : float;
  item_check : bool
}.

Definition line_of (col : loyer_col) (r : est_row) : line_item :=
  mk_line_item (nb_pieces (base r)) (epoque_construction (base r))
    (column col (base r)) (loyer_estime r) (dans_le_budget r).

(** The popup: the name in bold, then one line per row. *)
Record tooltip_html : Type := mk_tooltip {
  title : string;
  lines : list line_item
}.

(** One value of [quartiers_info]. *)
Record info : Type := mk_info {
  accessible : bool;
  tooltip : tooltip_html;
  info_geo_points : pyobj
}.

(** [group.iloc[0]] *)
Definition iloc0 {A : Type} (group : list A) : result A :=
  match group with
  | r :: _ => Ok r
  | [] => Raise IndexError
  end.

(** The body of the loop of line 144. *)
Definition summarise (col : loyer_col) (name : string) (group : list est_row)
  : result info :=
  let is_accessible := existsb dans_le_budget group in
  let group_sorted := stable_sort row_le group in
  let tooltip := mk_tooltip name (map (line_of col) group_sorted) in
  first <- iloc0 group ;;
  Ok (mk_info is_accessible tooltip (geo_points (base first))).

(** [d[k] = v] on a dict, which keeps the order of first insertion. *)
Fixpoint dict_set {V : Type} (d : list (string * V)) (k : string) (v : V)
  : list (string * V) :=
  match d with
  | [] => [(k, v)]
  | (k', v') :: t =>
      if String.eqb k' k then (k', v) :: t else (k', v') :: dict_set t k v
  end.

Fixpoint aggregate_loop (col : loyer_col)
  (groups : list (string * list est_row))
  (quartiers_info : list (string * info)) : result (list (string * info)) :=
  match groups with
  | [] => Ok quartiers_info
  | (name, group) :: rest =>
      i <- summarise col name group ;;
      aggregate_loop col rest (dict_set quartiers_info name i)
  end.

(** Lines 143-166. *)
Definition aggregate (col : loyer_col) (df : list est_row)
  : result (list (string * info)) :=
  aggregate_loop col (groupby_nom_quartier df) [].

(** ** Geometry and the map *)

(** [[point[1], point[0]]] *)
Definition inverted (point : pyobj) : result pyobj :=
  lat <- getitem_int point 1 ;;
  lon <- getitem_int point 0 ;;
  Ok (PyList [lat; lon]).

(** Line 176: [[[point[1], point[0]] for point in geo_points[0]]] *)
Definition points_inverted (geo_points : pyobj) : result (list pyobj) :=
  ring <- getitem_int geo_points 0 ;;
  points <- py_iter ring ;;
  comprehension inverted points.

Inductive colour : Type :=
| green
| red.

(** What is handed to [folium.Polygon] and its popup. *)
Record polygon : Type := mk_polygon {
  locations : list pyobj;
  color : colour;
  label : string;
  popup : tooltip_html
}.

(** The loop of lines 172-199: [TypeError] and [IndexError] skip the
    neighbourhood, any other exception leaves the loop. The calls into
    folium (lines 178-197) belong to the renderer and are taken to
    return. *)
Fixpoint render (quartiers_info : list (string * info)) (m : list polygon)
  : result (list polygon) :=
  match quartiers_info with
  | [] => Ok m
  | (quartier, i) :: rest =>
      let color := if accessible i then green else red in
      match points_inverted (info_geo_points i) with
      | Ok pts => render rest (m ++ [mk_polygon pts color quartier (tooltip i)])
      | Raise TypeError | Raise IndexError => render rest m
      | Raise e => Raise e
      end
  end.

(** What the page shows below the title. *)
Inductive view : Type :=
| NoMap
| Map (quartiers_info : list (string * info)) (m : list polygon).

(** Lines 83-204, for the frame that [load_data] returned: the messages
    shown, and the view or the exception that ended the script. *)
Definition page (data : list data_row) (c : criteria)
  : list signal * result view :=
  match data with
  | [] => ([Error msg_unavailable], Ok NoMap)
  | _ =>
      match dict_get col_loyer_map (loyer_a_utiliser c) with
      | Raise e => ([], Raise e)
      | Ok col_loyer_selection =>
          match df_filtered c data with
          | [] => ([Warning msg_no_match], Ok NoMap)
          | df =>
              ([],
               quartiers_info <-
                 aggregate col_loyer_selection
                   (estimate c col_loyer_selection df) ;;
               m <- render quartiers_info [] ;;
               Ok (Map quartiers_info m))
          end
      end
  end.

Section Script.
Context {D : Decoders}.

(** The whole script, from line 81. *)
Definition script (src : response) (c : criteria)
  : list signal * result view :=
  let (data, shown) := load_data src in
  let (shown', v) := page data c in
  (shown ++ shown', v).

End Script.

(** ** Reference decoders

    An executable instance of [Decoders] for the notation the dataset
    uses: decimal numbers (an optional sign, digits with at most one
    point, no exponent, fewer than 2^53 as an integer and at most 18
    decimals), and JSON without escapes in text, exponents or the literals
    [NaN] and [Infinity]. On that fragment the answers are those of pandas
    and of [json.loads]: such a decimal is the quotient of two integers
    that float64 holds exactly, and the division rounds it correctly.
    Outside the fragment the instance answers NaN, resp. a decoding error,
    which the libraries do not always do; the examples stay inside. *)
Module Ref.

Definition digit_of (c : ascii) : option Z :=
  let n := Z.of_N (N_of_ascii c) in
  if (48 <=? n) && (n <=? 57) then Some (n - 48) else None.

(** Reads digits with at most one point: the digits as an integer and the
    number of digits after the point. *)
Fixpoint scan_decimal (s : string) (mant : Z) (scale : option Z)
  (some_digit : bool) : option (Z * Z) :=
  match s with
  | EmptyString =>
      if some_digit
      then Some (mant, match scale with Some k => k | None => 0 end)
      else None
  | String c t =>
      match digit_of c with
      | Some d => scan_decimal t (10 * mant + d) (option_map Z.succ scale) true
      | None =>
          if Ascii.eqb c "."%char
          then match scale with
               | None => scan_decimal t mant (Some 0) some_digit
               | Some _ => None
               end
          else None
      end
  end.

Definition parse_unsigned (s : string) : float :=
  match scan_decimal s 0 None false with
  | Some (m, k) =>
      if (m <? 2 ^ 53) && (k <=? 18)
      then PrimFloat.div (float_of_Z m) (float_of_Z (10 ^ k))
      else PrimFloat.nan
  | None => PrimFloat.nan
  end.

Definition parse_decimal (s : string) : float :=
  match s with
  | String "-"%char t => PrimFloat.opp (parse_unsigned t)
  | String "+"%char t => parse_unsigned t
  | _ => parse_unsigned s
  end.

Definition dquote : ascii := "034"%char.

Definition is_space (c : ascii) : bool :=
  Ascii.eqb c " "%char || Ascii.eqb c "009"%char ||
  Ascii.eqb c "010"%char || Ascii.eqb c "013"%char.

Fixpoint skip_ws (s : string) : string :=
  match s with
  | String c t => if is_space c then skip_ws t else s
  | EmptyString => s
  end.

Fixpoint strip_prefix (p s : string) : option string :=
  match p, s with
  | EmptyString, _ => Some s
  | String a p', String b s' => if Ascii.eqb a b then strip_prefix p' s' else None
  | String _ _, EmptyString => None
  end.

(** Text up to the closing quote; a backslash is outside the fragment. *)
Fixpoint scan_text (s : string) : option (string * string) :=
  match s with
  | EmptyString => None
  | String c t =>
      if Ascii.eqb c dquote then Some (EmptyString, t)
      else if Ascii.eqb c "\"%char then None
      else match scan_text t with
           | Some (body, rest) => Some (String c body, rest)
           | None => None
           end
  end.

Definition is_number_char (c : ascii) : bool :=
  match digit_of c with
  | Some _ => true
  | None => Ascii.eqb c "-"%char || Ascii.eqb c "."%char
  end.

Fixpoint scan_number (s : string) : string * string :=
  match s with
  | String c t =>
      if is_number_char c
      then let (n, rest) := scan_number t in (String c n, rest)
      else (EmptyString, s)
  | EmptyString => (EmptyString, s)
  end.

Fixpoint has_point (s : string) : bool :=
  match s with
  | String c t => Ascii.eqb c "."%char || has_point t
  | EmptyString => false
  end.

Fixpoint all_digits (s : string) : bool :=
  match s with
  | String c t =>
      match digit_of c with
      | Some _ => all_digits t
      | None => false
      end
  | EmptyString => true
  end.

Fixpoint split_point (s : string) : string * option string :=
  match s with
  | String c t =>
      if Ascii.eqb c "."%char then (EmptyString, Some t)
      else let (i, f) := split_point t in (String c i, f)
  | EmptyString => (EmptyString, None)
  end.

(** The grammar of a JSON number without exponent: an optional minus, an
    integer part without a leading zero, and digits after a point. *)
Definition json_number (lexeme : string) : bool :=
  let unsigned := match lexeme with
                  | String "-"%char t => t
                  | _ => lexeme
                  end in
  let (i, f) := split_point unsigned in
  all_digits i &&
  match i with
  | EmptyString => false
  | String "0"%char (String _ _) => false
  | _ => true
  end &&
  match f with
  | Some EmptyString => false
  | Some d => all_digits d
  | None => true
  end.

(** A JSON number: an [int] without a point, a float with one. *)
Definition number_value (lexeme : string) : option pyobj :=
  let f := parse_decimal lexeme in
  if negb (json_number lexeme) || PrimFloat.is_nan f then None
  else if has_point lexeme then Some (PyFloat f)
  else match lexeme with
       | String "-"%char t =>
           match scan_decimal t 0 None false with
           | Some (m, _) => Some (PyInt (- m))
           | None => None
           end
       | _ =>
           match scan_decimal lexeme 0 None false with
           | Some (m, _) => Some (PyInt m)
           | None => None
           end
       end.

Fixpoint parse_value (fuel : nat) (s : string) : option (pyobj * string) :=
  match fuel with
  | O => None
  | S fuel' =>
      match skip_ws s with
      | EmptyString => None
      | String c t =>
          if Ascii.eqb c "["%char then
            match skip_ws t with
            | String "]"%char rest => Some (PyList [], rest)
            | _ =>
                match parse_elements fuel' t with
                | Some (l, rest) => Some (PyList l, rest)
                | None => None
                end
            end
          else if Ascii.eqb c "{"%char then
            match skip_ws t with
            | String "}"%char rest => Some (PyDict [], rest)
            | _ =>
                match parse_members fuel' t with
                | Some (kv, rest) =>
                    Some (PyDict (fold_left (fun d p => dict_set d (fst p) (snd p))
                                    kv []), rest)
                | None => None
                end
            end
          else if Ascii.eqb c dquote then
            match scan_text t with
            | Some (body, rest) => Some (PyStr body, rest)
            | None => None
            end
          else
            match strip_prefix "null" (String c t) with
            | Some rest => Some (PyNone, rest)
            | None =>
            match strip_prefix "true" (String c t) with
            | Some rest => Some (PyBool true, rest)
            | None =>
            match strip_prefix "false" (String c t) with
            | Some rest => Some (PyBool false, rest)
            | None =>
                let (lexeme, rest) := scan_number (String c t) in
                match number_value lexeme with
                | Some v => Some (v, rest)
                | None => None
                end
            end end end
      end
  end

with parse_elements (fuel : nat) (s : string)
  : option (list pyobj * string) :=
  match fuel with
  | O => None
  | S fuel' =>
      match parse_value fuel' s with
      | None => None
      | Some (v, rest) =>
          match skip_ws rest with
          | String "]"%char rest' => Some ([v], rest')
          | String ","%char rest' =>
              match parse_elements fuel' rest' with
              | Some (l, rest'') => Some (v :: l, rest'')
              | None => None
              end
          | _ => None
          end
      end
  end

with parse_members (fuel : nat) (s : string)
  : option (list (string * pyobj) * string) :=
  match fuel with
  | O => None
  | S fuel' =>
      match skip_ws s with
      | String c t =>
          if Ascii.eqb c dquote then
            match scan_text t with
            | None => None
            | Some (k, rest) =>
                match skip_ws rest with
                | String ":"%char rest' =>
                    match parse_value fuel' rest' with
                    | None => None
                    | Some (v, rest'') =>
                        match skip_ws rest'' with
                        | String "}"%char r => Some ([(k, v)], r)
                        | String ","%char r =>
                            match parse_members fuel' r with
                            | Some (kv, r') => Some ((k, v) :: kv, r')
                            | None => None
                            end
                        | _ => None
                        end
                    end
                | _ => None
                end
            end
          else None
      | EmptyString => None
      end
  end.

Definition decode (s : string) : option pyobj :=
  match parse_value (2 * String.length s + 2) s with
  | Some (v, rest) =>
      match skip_ws rest with
      | EmptyString => Some v
      | String _ _ => None
      end
  | None => None
  end.

#[export] Instance decoders : Decoders := {|
  to_numeric := parse_decimal;
  json_loads := decode
|}.

End Ref.

(** ** Row-wise view of [load_data]

    The frame operations of [clean] act on each row on its own; these
    three functions say what happens to one row. *)
Section RowView.
Context {D : Decoders}.

(** The value that [safe_json_load] returns. *)
Definition coordinates_of (x : option string) : pyobj :=
  match safe_json_load x with
  | Ok c => c
  | Raise _ => PyNone
  end.

Definition clean_row (r : csv_row) : data_row :=
  let n := coerce_loyers r in
  mk_row (annee n) (nom_quartier n) (nb_pieces n) (epoque_construction n)
    (type_location n) (loyer_ref n) (loyer_majore n) (loyer_minore n)
    (geo_shape n) (coordinates_of (geo_shape n)).

(** The rows that reach the frame returned. *)
Definition kept (r : csv_row) : bool :=
  (annee r =? 2025) && complete (coerce_loyers r) &&
  negb (isna (coordinates_of (geo_shape r))).

(** The geometry cell did not decode: [safe_json_load] returned [None]. *)
Definition undecoded (r : csv_row) : bool :=
  match safe_json_load (geo_shape r) with
  | Ok PyNone => true
  | _ => false
  end.

End RowView.

(** The strict order in which group keys are enumerated. *)
Definition string_lt (s1 s2 : string) : Prop := String.compare s1 s2 = Lt.

Definition sf_is_nan (f : spec_float) : bool :=
  match f with
  | S754_nan => true
  | _ => false
  end.

Definition sf_pos_finite (f : spec_float) : bool :=
  match f with
  | S754_finite false _ _ => true
  | _ => false
  end.

(** ** A small payload

    Two dwellings of one neighbourhood whose capped rents give 1200 and
    1800 euros for 30 square metres, and a few rows that the pipeline
    rejects or treats apart. *)
Module Sample.

Local Open Scope string_scope.

Definition quoted (s : string) : string :=
  String Ref.dquote (s ++ String Ref.dquote EmptyString).

Definition shape (coordinates : string) : string :=
  "{" ++ quoted "coordinates" ++ ": " ++ coordinates ++ ", "
      ++ quoted "type" ++ ": " ++ quoted "Polygon" ++ "}".

Definition ring_text : string :=
  "[[2.25, 48.5], [2.5, 48.5], [2.5, 48.75], [2.25, 48.5]]".

Definition polygon_text : string := shape ("[" ++ ring_text ++ "]").

Definition studio : csv_row :=
  mk_row 2025 (Some "Quartier A") 1 "Avant 1946" "non meublé"
    (Some "33,5") (Some "40,0") (Some "23,5") (Some polygon_text) tt.

Definition two_rooms : csv_row :=
  mk_row 2025 (Some "Quartier A") 2 "Avant 1946" "non meublé"
    (Some "50,0") (Some "60,0") (Some "35,0") (Some polygon_text) tt.

Definition recent : csv_row :=
  mk_row 2025 (Some "Quartier B") 1 "Apres 1990" "non meublé"
    (Some "30,0") (Some "36,0") (Some "21,0") (Some polygon_text) tt.

Definition last_year : csv_row :=
  mk_row 2024 (Some "Quartier A") 1 "Avant 1946" "non meublé"
    (Some "33,5") (Some "40,0") (Some "23,5") (Some polygon_text) tt.

(** The cheap dwelling again, with a geometry cell that is not JSON. *)
Definition studio_bad_shape : csv_row :=
  mk_row 2025 (Some "Quartier A") 1 "Avant 1946" "non meublé"
    (Some "33,5") (Some "40,0") (Some "23,5") (Some "POLYGON ((2.25 48.5))") tt.

(** A row whose reference rent is negative. *)
Definition negative_rent : csv_row :=
  mk_row 2025 (Some "Quartier A") 1 "Avant 1946" "non meublé"
    (Some "-5,0") (Some "40,0") (Some "23,5") (Some polygon_text) tt.

Definition wish : criteria :=
  mk_criteria 1500 30 "non meublé" ["Avant 1946"]
    "Loyers de référence majorés".

(** A decoded frame row around a given capped rent and geometry. *)
Definition dwelling (loyer : float) (geo : pyobj) : data_row :=
  mk_row 2025 (Some "Quartier A") 1 "Avant 1946" "non meublé"
    loyer loyer loyer (Some polygon_text) geo.

(** The cheap dwelling again, with coordinates that are a JSON object. *)
Definition studio_object_shape : csv_row :=
  mk_row 2025 (Some "Quartier A") 1 "Avant 1946" "non meublé"
    (Some "33,5") (Some "40,0") (Some "23,5")
    (Some (shape ("{" ++ quoted "ring" ++ ": " ++ ring_text ++ "}"))) tt.

Definition pt (lon lat : float) : pyobj := PyList [PyFloat lon; PyFloat lat].

Definition ring : list pyobj :=
  [pt 2.25 48.5; pt 2.5 48.5; pt 2.5 48.75; pt 2.25 48.5].

(** Coordinates of a Polygon and of a MultiPolygon with the same outline. *)
Definition polygon_coordinates : pyobj := PyList [PyList ring].
Definition multipolygon_coordinates : pyobj := PyList [PyList [PyList ring]].

End Sample.

(** The order that the lines of a popup are claimed to follow. *)
Definition item_le (a b : line_item) : Prop :=
  item_nb_pieces a < item_nb_pieces b \/
  (item_nb_pieces a = item_nb_pieces b /\
   PrimFloat.leb (item_loyer_estime a) (item_loyer_estime b) = true).

(** ** Shapes of a geometry *)

(** A point with at least two components. *)
Definition is_point (p : pyobj) : bool :=
  match p with
  | PyList (_ :: _ :: _) => true
  | _ => false
  end.

Definition swap_axes (p : pyobj) : pyobj :=
  match p with
  | PyList (lon :: lat :: _) => PyList [lat; lon]
  | _ => p
  end.

Definition is_dict (o : pyobj) : bool :=
  match o with
  | PyDict _ => true
  | _ => false
  end.

(** Neither the coordinates nor a point of the list [coordinates[0]] is a
    dict. *)
Definition no_dict_on_path (geo : pyobj) : bool :=
  match geo with
  | PyDict _ => false
  | PyList (PyList points :: _) => forallb (fun p => negb (is_dict p)) points
  | _ => true
  end.

(** The outcomes of line 176 after which the loop goes on. *)
Definition contained {A : Type} (r : result A) : Prop :=
  match r with
  | Ok _ | Raise TypeError | Raise IndexError => True
  | Raise _ => False
  end.

Definition renderable (entry : string * info) : bool :=
  match points_inverted (info_geo_points (snd entry)) with
  | Ok _ => true
  | Raise _ => false
  end.

(** Following the words of the spec (sections 3 and 4.5), not the code: a
    geometry is a polygon or a multipolygon of [longitude, latitude]
    pairs, and the renderer-ready list is the first ring of the first
    polygon with the axes of each pair swapped. *)
Module GeometrySpec.

Definition is_number (o : pyobj) : bool :=
  match o with
  | PyInt _ | PyFloat _ => true
  | _ => false
  end.

Definition is_position (p : pyobj) : bool :=
  match p with
  | PyList [lon; lat] => is_number lon && is_number lat
  | _ => false
  end.

Definition is_ring (r : pyobj) : bool :=
  match r with
  | PyList positions => forallb is_position positions
  | _ => false
  end.

Definition is_polygon (g : pyobj) : bool :=
  match g with
  | PyList (r :: rs) => forallb is_ring (r :: rs)
  | _ => false
  end.

Definition is_multipolygon (g : pyobj) : bool :=
  match g with
  | PyList (p :: ps) => forallb is_polygon (p :: ps)
  | _ => false
  end.

Definition well_formed (g : pyobj) : bool :=
  is_polygon g || is_multipolygon g.

Definition first_ring_of_first_polygon (g : pyobj) : list pyobj :=
  if is_polygon g then
    match g with
    | PyList (PyList ring :: _) => ring
    | _ => []
    end
  else
    match g with
    | PyList (PyList (PyList ring :: _) :: _) => ring
    | _ => []
    end.

Definition renderer_ready (g : pyobj) : list pyobj :=
  map swap_axes (first_ring_of_first_polygon g).

End GeometrySpec.


(** ** The sidebar options (lines 103-121) *)

(** [Series.unique()]: the values in order of first appearance. *)
Fixpoint unique (l : list string) : list string :=
  match l with
  | [] => []
  | x :: t => x :: filter (fun y => negb (String.eqb x y)) (unique t)
  end.

(** [sorted(...)] on text. *)
Definition py_sorted (l : list string) : list string :=
  stable_sort String.leb l.

(** Line 105. *)
Definition type_loc_options (data : list data_row) : list string :=
  py_sorted (unique (map type_location data)).

(** Line 109. *)
Definition epoques_options (data : list data_row) : list string :=
  py_sorted (unique (map epoque_construction data)).

(** Line 116. *)
Definition loyer_options : list string :=
  [ "Loyers de référence majorés"%string;
    "Loyers de référence"%string;
    "Loyers de référence minorés"%string ].


(** The criteria with another budget. *)
Definition with_budget (c : criteria) (b : Z) : criteria :=
  mk_criteria b (surface c) (type_loc c) (epoque_selection c)
    (loyer_a_utiliser c).

Fixpoint has_comma (s : string) : bool :=
  match s with
  | EmptyString => false
  | String c t => Ascii.eqb c ","%char || has_comma t
  end.

(** * Properties *)

(** ** Order on text *)

Lemma ascii_compare_refl (a : ascii) : Ascii.compare a a = Eq.
Proof. unfold Ascii.compare. apply N.compare_refl. Qed.

Lemma ascii_compare_lt_trans (a b c : ascii) :
  Ascii.compare a b = Lt -> Ascii.compare b c = Lt -> Ascii.compare a c = Lt.
Proof.
  unfold Ascii.compare. rewrite !N.compare_lt_iff. apply N.lt_trans.
Qed.

Lemma string_compare_refl (s : string) : String.compare s s = Eq.
Proof.
  induction s as [|a s IH]; simpl; [reflexivity|].
  now rewrite ascii_compare_refl.
Qed.

Lemma string_compare_lt_trans (s1 s2 s3 : string) :
  String.compare s1 s2 = Lt -> String.compare s2 s3 = Lt ->
  String.compare s1 s3 = Lt.
Proof.
  revert s2 s3.
  induction s1 as [|a s1 IH]; intros [|b s2] [|c s3]; simpl;
    try congruence.
  destruct (Ascii.compare a b) eqn:Hab; try discriminate;
    destruct (Ascii.compare b c) eqn:Hbc; try discriminate; intros H1 H2.
  - apply Ascii.compare_eq_iff in Hab, Hbc. subst.
    rewrite ascii_compare_refl. eauto.
  - apply Ascii.compare_eq_iff in Hab. subst. now rewrite Hbc.
  - apply Ascii.compare_eq_iff in Hbc. subst. now rewrite Hab.
  - now rewrite (ascii_compare_lt_trans a b c).
Qed.

Lemma string_compare_gt_lt (s1 s2 : string) :
  String.compare s1 s2 = Gt -> String.compare s2 s1 = Lt.
Proof.
  intros H. rewrite String.compare_antisym, H. reflexivity.
Qed.

Lemma string_lt_irrefl (s : string) : String.compare s s <> Lt.
Proof. rewrite string_compare_refl. discriminate. Qed.

(** ** Group keys *)

Lemma In_insert_key (k x : string) (l : list string) :
  In x (insert_key k l) <-> x = k \/ In x l.
Proof.
  induction l as [|h t IH]; simpl.
  - intuition.
  - destruct (String.compare k h) eqn:E; simpl.
    + apply String.compare_eq_iff in E. subst. intuition.
    + intuition.
    + rewrite IH. intuition.
Qed.

Lemma In_sorted_keys (x : string) (l : list string) :
  In x (sorted_keys l) <-> In x l.
Proof.
  induction l as [|h t IH]; simpl; [reflexivity|].
  rewrite In_insert_key, IH. intuition.
Qed.

Lemma insert_key_sorted (k : string) (l : list string) :
  StronglySorted string_lt l -> StronglySorted string_lt (insert_key k l).
Proof.
  induction 1 as [|h t Hs IH Hh]; simpl.
  - repeat constructor.
  - destruct (String.compare k h) eqn:E.
    + now constructor.
    + constructor; [now constructor|].
      constructor; [exact E|].
      eapply Forall_impl; [|exact Hh].
      intros x Hx. eapply string_compare_lt_trans; eauto.
    + constructor; [exact IH|].
      rewrite Forall_forall in *. intros x Hx.
      apply In_insert_key in Hx as [->|Hx]; [|now apply Hh].
      now apply string_compare_gt_lt.
Qed.

Lemma sorted_keys_sorted (l : list string) :
  StronglySorted string_lt (sorted_keys l).
Proof.
  induction l as [|h t IH]; simpl; [constructor|].
  now apply insert_key_sorted.
Qed.

Lemma strongly_sorted_NoDup (l : list string) :
  StronglySorted string_lt l -> NoDup l.
Proof.
  induction 1 as [|h t Hs IH Hh]; constructor; [|exact IH].
  intros Hin. rewrite Forall_forall in Hh.
  exact (string_lt_irrefl h (Hh h Hin)).
Qed.

Lemma sorted_keys_NoDup (l : list string) : NoDup (sorted_keys l).
Proof. apply strongly_sorted_NoDup, sorted_keys_sorted. Qed.

(** ** The stable sort *)

Section StableSortFacts.
Context {A : Type} (le : A -> A -> bool).
Hypothesis le_total : forall x y, le x y = true \/ le y x = true.
Hypothesis le_trans :
  forall x y z, le x y = true -> le y z = true -> le x z = true.

Lemma insert_sorted_perm (x : A) (l : list A) :
  Permutation (x :: l) (insert_sorted le x l).
Proof.
  induction l as [|y t IH]; simpl; [reflexivity|].
  destruct (le x y); [reflexivity|].
  rewrite perm_swap. now constructor.
Qed.

Lemma stable_sort_perm (l : list A) : Permutation l (stable_sort le l).
Proof.
  induction l as [|x t IH]; simpl; [constructor|].
  rewrite <- insert_sorted_perm. now constructor.
Qed.

Lemma insert_sorted_sorted (x : A) (l : list A) :
  StronglySorted (fun a b => le a b = true) l ->
  StronglySorted (fun a b => le a b = true) (insert_sorted le x l).
Proof.
  induction 1 as [|y t Hs IH Hy]; simpl.
  - repeat constructor.
  - destruct (le x y) eqn:E.
    + constructor; [now constructor|].
      constructor; [exact E|].
      eapply Forall_impl; [|exact Hy]. intros z Hz. eauto.
    + constructor; [exact IH|].
      rewrite Forall_forall in *. intros z Hz.
      apply (Permutation_in _ (Permutation_sym (insert_sorted_perm x t)))
        in Hz.
      destruct Hz as [<-|Hz]; [|now apply Hy].
      destruct (le_total x y) as [H|H]; congruence.
Qed.

Lemma stable_sort_sorted (l : list A) :
  StronglySorted (fun a b => le a b = true) (stable_sort le l).
Proof.
  induction l as [|x t IH]; simpl; [constructor|].
  now apply insert_sorted_sorted.
Qed.

End StableSortFacts.

(** ** Order on float64 *)

Lemma SFcompare_refl (f : spec_float) :
  sf_is_nan f = false -> SFcompare f f = Some Eq.
Proof.
  destruct f as [s|s| |s m e]; simpl; try discriminate; intros _.
  - reflexivity.
  - now destruct s.
  - rewrite Z.compare_refl, Pos.compare_cont_refl. now destruct s.
Qed.

Lemma is_nan_Prim2SF (x : float) :
  PrimFloat.is_nan x = sf_is_nan (Prim2SF x).
Proof.
  unfold PrimFloat.is_nan. rewrite FloatAxioms.eqb_spec. unfold SFeqb.
  destruct (sf_is_nan (Prim2SF x)) eqn:E.
  - destruct (Prim2SF x); try discriminate. reflexivity.
  - now rewrite SFcompare_refl.
Qed.

Lemma SFleb_not_nan (x y : spec_float) :
  SFleb x y = true -> sf_is_nan x = false /\ sf_is_nan y = false.
Proof.
  unfold SFleb. destruct x, y; simpl; try discriminate; auto.
Qed.

Lemma SFleb_total (x y : spec_float) :
  sf_is_nan x = false -> sf_is_nan y = false ->
  SFleb x y = true \/ SFleb y x = true.
Proof.
  unfold SFleb.
  destruct x as [s1|s1| |s1 m1 e1], y as [s2|s2| |s2 m2 e2]; simpl;
    try discriminate; intros _ _;
    try (destruct s1; auto; fail); try (destruct s2; auto; fail);
    try (destruct s1, s2; auto; fail).
  change (Pos.compare_cont Eq) with Pos.compare.
  rewrite (Z.compare_antisym e1 e2), (Pos.compare_antisym m1 m2).
  destruct s1, s2; auto;
    destruct (e1 ?= e2); simpl; auto;
    destruct (m1 ?= m2)%positive; simpl; auto.
Qed.

Ltac order_cases :=
  repeat match goal with
         | |- context [Z.compare ?a ?b] =>
             destruct (Z.compare_spec a b); subst
         | |- context [Pos.compare ?a ?b] =>
             destruct (Pos.compare_spec a b); subst
         | H : context [Z.compare ?a ?b] |- _ =>
             destruct (Z.compare_spec a b); subst
         | H : context [Pos.compare ?a ?b] |- _ =>
             destruct (Pos.compare_spec a b); subst
         end;
  simpl in *; try reflexivity; try discriminate; try lia.

Lemma SFleb_trans (x y z : spec_float) :
  SFleb x y = true -> SFleb y z = true -> SFleb x z = true.
Proof.
  unfold SFleb.
  destruct x as [s1|s1| |s1 m1 e1], y as [s2|s2| |s2 m2 e2],
    z as [s3|s3| |s3 m3 e3]; simpl; try discriminate; try reflexivity;
    try (destruct s1; try discriminate; try reflexivity);
    try (destruct s2; try discriminate; try reflexivity);
    try (destruct s3; try discriminate; try reflexivity);
    change (Pos.compare_cont Eq) with Pos.compare; intros H1 H2;
    order_cases.
Qed.

Lemma float_le_na_last_total (x y : float) :
  float_le_na_last x y = true \/ float_le_na_last y x = true.
Proof.
  unfold float_le_na_last. rewrite !FloatAxioms.leb_spec, !is_nan_Prim2SF.
  destruct (sf_is_nan (Prim2SF y)) eqn:Ey; auto.
  destruct (sf_is_nan (Prim2SF x)) eqn:Ex; auto.
  now apply SFleb_total.
Qed.

Lemma float_le_na_last_trans (x y z : float) :
  float_le_na_last x y = true -> float_le_na_last y z = true ->
  float_le_na_last x z = true.
Proof.
  unfold float_le_na_last. rewrite !FloatAxioms.leb_spec, !is_nan_Prim2SF.
  destruct (sf_is_nan (Prim2SF z)) eqn:Ez; auto.
  destruct (sf_is_nan (Prim2SF y)) eqn:Ey; [discriminate|].
  destruct (sf_is_nan (Prim2SF x)) eqn:Ex; [discriminate|].
  apply SFleb_trans.
Qed.

Lemma float_le_na_last_leb (x y : float) :
  PrimFloat.is_nan x = false -> PrimFloat.is_nan y = false ->
  float_le_na_last x y = PrimFloat.leb x y.
Proof.
  unfold float_le_na_last. now intros -> ->.
Qed.

(** ** A product is NaN only for a NaN factor or zero times infinity *)

Lemma iter_pos_invariant {A : Type} (f : A -> A) (P : A -> Prop) :
  (forall a, P a -> P (f a)) -> forall n a, P a -> P (iter_pos f n a).
Proof.
  intros Hf. induction n as [n IH|n IH|]; simpl; auto.
Qed.

Lemma shr_1_nonneg (mrs : shr_record) :
  0 <= shr_m mrs -> 0 <= shr_m (shr_1 mrs).
Proof.
  destruct mrs as [m r s]. simpl.
  destruct m as [|[p|p|]|[p|p|]]; simpl; lia.
Qed.

Lemma shr_fexp_nonneg (m e : Z) (l : location) :
  0 <= m -> 0 <= shr_m (fst (shr_fexp prec emax m e l)).
Proof.
  intros Hm. unfold shr_fexp, shr.
  assert (H0 : 0 <= shr_m (shr_record_of_loc m l))
    by (destruct l as [|[]]; exact Hm).
  destruct (fexp prec emax (Zdigits2 m + e) - e); simpl; auto.
  apply (iter_pos_invariant shr_1 (fun r => 0 <= shr_m r)); auto.
  apply shr_1_nonneg.
Qed.

Lemma round_nearest_even_nonneg (m : Z) (l : location) :
  0 <= m -> 0 <= round_nearest_even m l.
Proof.
  intros Hm. destruct l as [|[]]; simpl; try lia.
  destruct (Z.even m); lia.
Qed.

Lemma binary_round_aux_not_nan (sx : bool) (m e : Z) (l : location) :
  0 <= m -> sf_is_nan (binary_round_aux prec emax sx m e l) = false.
Proof.
  intros Hm. unfold binary_round_aux.
  pose proof (shr_fexp_nonneg m e l Hm) as H1.
  destruct (shr_fexp prec emax m e l) as [mrs' e']. simpl in H1.
  pose proof (shr_fexp_nonneg _ e' loc_Exact
                (round_nearest_even_nonneg _ (loc_of_shr_record mrs') H1))
    as H2.
  destruct (shr_fexp prec emax _ e' loc_Exact) as [mrs'' e'']. simpl in H2.
  destruct (shr_m mrs'') as [|p|p]; [reflexivity| |lia].
  destruct (e'' <=? emax - prec); reflexivity.
Qed.

Lemma SFmul_pos_finite_not_nan (x y : spec_float) :
  sf_is_nan x = false -> sf_pos_finite y = true ->
  sf_is_nan (SF64mul x y) = false.
Proof.
  unfold SF64mul, SFmul.
  destruct x as [sx|sx| |sx mx ex], y as [sy|sy| |[] my ey]; simpl;
    try discriminate; try reflexivity.
  intros _ _. now apply binary_round_aux_not_nan.
Qed.

(** Every value of the surface widget (10 to 200) is a positive finite
    float. *)
Lemma surface_pos_finite (s : Z) :
  10 <= s <= 200 -> sf_pos_finite (Prim2SF (float_of_Z s)) = true.
Proof.
  intros Hs.
  assert (H : forallb (fun n => sf_pos_finite
                                  (Prim2SF (float_of_Z (Z.of_nat n + 10))))
                (seq 0 191) = true) by (vm_compute; reflexivity).
  rewrite forallb_forall in H.
  specialize (H (Z.to_nat (s - 10))).
  replace (Z.of_nat (Z.to_nat (s - 10)) + 10) with s in H by lia.
  apply H, in_seq. lia.
Qed.

Lemma mul_surface_not_nan (x : float) (s : Z) :
  PrimFloat.is_nan x = false -> 10 <= s <= 200 ->
  PrimFloat.is_nan (PrimFloat.mul x (float_of_Z s)) = false.
Proof.
  rewrite !is_nan_Prim2SF, FloatAxioms.mul_spec. intros Hx Hs.
  apply SFmul_pos_finite_not_nan; [exact Hx|].
  now apply surface_pos_finite.
Qed.

(** ** [load_data], row by row *)

Section LoadDataFacts.
Context {D : Decoders}.

Lemma dict_get_raises {V : Type} (d : list (string * V)) (k : string) (e : exn) :
  dict_get d k = Raise e -> e = KeyError.
Proof.
  induction d as [|[k' v] t IH]; simpl.
  - congruence.
  - destruct (String.eqb k' k); [discriminate|exact IH].
Qed.

(** [safe_json_load] never raises. *)
Lemma safe_json_load_total (x : option string) :
  safe_json_load x = Ok (coordinates_of x).
Proof.
  unfold coordinates_of, safe_json_load, loads.
  destruct x as [s|]; simpl; [|reflexivity].
  destruct (json_loads s) as [o|]; simpl; [|reflexivity].
  destruct o; simpl; try reflexivity.
  destruct (dict_get kv "coordinates") as [c|e] eqn:E; [reflexivity|].
  apply dict_get_raises in E. now subst.
Qed.

Lemma with_geo_points_total (df : list csv_row) :
  comprehension with_geo_points (map coerce_loyers df) = Ok (map clean_row df).
Proof.
  induction df as [|r t IH]; simpl; [reflexivity|].
  unfold with_geo_points at 1. rewrite safe_json_load_total. simpl.
  rewrite IH. reflexivity.
Qed.

Lemma filter_map_comm {A B : Type} (f : A -> B) (p : B -> bool) (l : list A) :
  filter p (map f l) = map f (filter (fun a => p (f a)) l).
Proof.
  induction l as [|a t IH]; simpl; [reflexivity|].
  destruct (p (f a)); simpl; now rewrite IH.
Qed.

Lemma filter_filter {A : Type} (p q : A -> bool) (l : list A) :
  filter p (filter q l) = filter (fun a => q a && p a) l.
Proof.
  induction l as [|a t IH]; simpl; [reflexivity|].
  destruct (q a); simpl; [destruct (p a)|]; now rewrite IH.
Qed.

(** The frame that [clean] returns is the image of the kept rows. *)
Lemma clean_rows (df : list csv_row) :
  exists shown, clean df = Ok (map clean_row (filter kept df), shown).
Proof.
  unfold clean.
  destruct (filter_annee df) as [|r0 t] eqn:E.
  - exists [Warning msg_no_data_2025]. f_equal. f_equal.
    assert (H : filter kept df = filter kept (filter_annee df)).
    { unfold filter_annee. rewrite filter_filter. apply filter_ext.
      intros r. unfold kept. now destruct (annee r =? 2025). }
    now rewrite H, E.
  - exists []. rewrite <- E. clear E.
    rewrite filter_map_comm, with_geo_points_total. simpl.
    rewrite filter_map_comm. unfold filter_annee. rewrite !filter_filter.
    rewrite (filter_ext _ kept); [reflexivity|].
    intros r. unfold kept. simpl. now rewrite andb_assoc.
Qed.

Lemma load_data_rows (df : list csv_row) :
  fst (load_data (Frame df)) = map clean_row (filter kept df).
Proof.
  simpl. destruct (clean_rows df) as [shown ->]. reflexivity.
Qed.

End LoadDataFacts.

(** ** The aggregation loop *)

Lemma dict_set_fresh {V : Type} (d : list (string * V)) (k : string) (v : V) :
  ~ In k (map fst d) -> dict_set d k v = d ++ [(k, v)].
Proof.
  induction d as [|[k' v'] t IH]; simpl; intros Hk; [reflexivity|].
  destruct (String.eqb_spec k' k) as [->|Hne]; [tauto|].
  rewrite IH; tauto.
Qed.

Lemma In_names (k : string) (df : list est_row) :
  In k (names df) <-> exists r, In r df /\ nom_quartier (base r) = Some k.
Proof.
  unfold names. rewrite in_flat_map. split.
  - intros [r [Hr Hk]]. exists r. split; [exact Hr|].
    destruct (nom_quartier (base r)) as [n|]; simpl in Hk; [|tauto].
    destruct Hk as [->|[]]. reflexivity.
  - intros [r [Hr Hk]]. exists r. split; [exact Hr|].
    rewrite Hk. now left.
Qed.

Lemma named_iff (k : string) (r : est_row) :
  named k r = true <-> nom_quartier (base r) = Some k.
Proof.
  unfold named. destruct (nom_quartier (base r)) as [n|].
  - rewrite String.eqb_eq. split; congruence.
  - split; discriminate.
Qed.

Lemma group_nonempty (k : string) (df : list est_row) :
  In k (names df) -> filter (named k) df <> [].
Proof.
  intros Hk. apply In_names in Hk as [r [Hr Hn]].
  assert (H : In r (filter (named k) df))
    by (apply filter_In; split; [exact Hr|now apply named_iff]).
  intros E. now rewrite E in H.
Qed.

Lemma summarise_nonempty (col : loyer_col) (name : string)
  (group : list est_row) :
  group <> [] -> exists i, summarise col name group = Ok i.
Proof.
  destruct group as [|r g]; [congruence|]. intros _.
  unfold summarise. simpl. eauto.
Qed.

Lemma aggregate_loop_keys (col : loyer_col) (df : list est_row)
  (keys : list string) :
  forall acc,
    NoDup keys ->
    (forall k, In k keys -> ~ In k (map fst acc)) ->
    (forall k, In k keys -> filter (named k) df <> []) ->
    exists infos,
      aggregate_loop col (map (fun k => (k, filter (named k) df)) keys) acc
      = Ok (acc ++ infos) /\
      map fst infos = keys /\
      forall k i, In (k, i) infos ->
                  summarise col k (filter (named k) df) = Ok i.
Proof.
  induction keys as [|k ks IH]; intros acc Hnd Hfresh Hne; simpl.
  - exists []. rewrite app_nil_r. repeat split. intros k i [].
  - destruct (summarise_nonempty col k _ (Hne k (or_introl eq_refl)))
      as [i Hi].
    rewrite Hi. simpl.
    rewrite dict_set_fresh by (apply Hfresh; now left).
    inversion Hnd as [|? ? Hk Hnd']; subst.
    destruct (IH (acc ++ [(k, i)]) Hnd') as [infos [Hrun [Hkeys Hsum]]].
    + intros k' Hk'. rewrite map_app, in_app_iff. simpl.
      intros [H|[H|[]]].
      * apply (Hfresh k'); [now right|exact H].
      * congruence.
    + intros k' Hk'. apply Hne. now right.
    + exists ((k, i) :: infos). rewrite Hrun, <- app_assoc. simpl.
      repeat split; [now rewrite Hkeys|].
      intros k' i' [H|H]; [now inversion H; subst|now apply Hsum].
Qed.

(** [aggregate] returns, with one entry per group key in key order, each
    entry being the summary of the rows that carry the key. *)
Lemma aggregate_ok (col : loyer_col) (df : list est_row) :
  exists quartiers_info,
    aggregate col df = Ok quartiers_info /\
    map fst quartiers_info = sorted_keys (names df) /\
    forall k i, In (k, i) quartiers_info ->
                summarise col k (filter (named k) df) = Ok i.
Proof.
  unfold aggregate, groupby_nom_quartier.
  destruct (aggregate_loop_keys col df (sorted_keys (names df)) [])
    as [infos H].
  - apply sorted_keys_NoDup.
  - intros k _ [].
  - intros k Hk. apply group_nonempty. now apply In_sorted_keys.
  - exists infos. exact H.
Qed.

Lemma summarise_fields (col : loyer_col) (name : string)
  (group : list est_row) (i : info) :
  summarise col name group = Ok i ->
  accessible i = existsb dans_le_budget group /\
  tooltip i = mk_tooltip name (map (line_of col) (stable_sort row_le group)) /\
  exists r, hd_error group = Some r /\ info_geo_points i = geo_points (base r).
Proof.
  unfold summarise. destruct group as [|r g]; simpl; [discriminate|].
  intros H. inversion H; subst; simpl. repeat split. eauto.
Qed.

(** ** The criteria filter and the estimate *)

Lemma In_df_filtered (c : criteria) (data : list data_row) (r : data_row) :
  In r (df_filtered c data) <->
  In r data /\ type_location r = type_loc c /\
  In (epoque_construction r) (epoque_selection c).
Proof.
  unfold df_filtered. rewrite filter_In, andb_true_iff, String.eqb_eq.
  rewrite existsb_exists. split.
  - intros [Hr [Ht [e [He Heq]]]]. apply String.eqb_eq in Heq. subst e.
    auto.
  - intros [Hr [Ht He]]. repeat split; auto.
    exists (epoque_construction r). split; [exact He|apply String.eqb_refl].
Qed.

Lemma In_estimate (c : criteria) (col : loyer_col) (df : list data_row)
  (e : est_row) :
  In e (estimate c col df) <-> exists r, In r df /\ e = estimate_row c col r.
Proof.
  unfold estimate. rewrite in_map_iff. split; intros [r [H1 H2]]; eauto.
Qed.

Lemma base_estimate (c : criteria) (col : loyer_col) (df : list data_row) :
  map base (estimate c col df) = df.
Proof.
  unfold estimate. rewrite map_map. simpl. apply map_id.
Qed.

Lemma In_names_estimate (c : criteria) (col : loyer_col)
  (df : list data_row) (k : string) :
  In k (names (estimate c col df)) <->
  exists r, In r df /\ nom_quartier r = Some k.
Proof.
  rewrite In_names. split.
  - intros [e [He Hk]]. apply In_estimate in He as [r [Hr ->]]. eauto.
  - intros [r [Hr Hk]]. exists (estimate_row c col r).
    split; [apply In_estimate; eauto|exact Hk].
Qed.

Lemma In_fst {A B : Type} (k : A) (l : list (A * B)) :
  In k (map fst l) <-> exists v, In (k, v) l.
Proof.
  rewrite in_map_iff. split.
  - intros [[k' v] [Hk Hin]]. simpl in Hk. subst. eauto.
  - intros [v Hin]. exists (k, v). auto.
Qed.

Lemma stable_sort_nonempty {A : Type} (le : A -> A -> bool) (l : list A) :
  l <> [] -> stable_sort le l <> [].
Proof.
  intros Hl E. apply Hl.
  apply Permutation_nil. rewrite <- E. apply Permutation_sym, stable_sort_perm.
Qed.

(** ** Claims on the aggregated mapping *)

(** C10: iterating [quartiers_info] yields the distinct neighbourhood
    names of the frame in ascending order: [aggregate] returns, its keys
    are strictly ascending (so distinct) and they are exactly the names
    that some row carries. *)
Theorem quartiers_info_keys_ascending (col : loyer_col) (df : list est_row) :
  exists quartiers_info,
    aggregate col df = Ok quartiers_info /\
    StronglySorted string_lt (map fst quartiers_info) /\
    forall k, In k (map fst quartiers_info) <->
              exists r, In r df /\ nom_quartier (base r) = Some k.
Proof.
  destruct (aggregate_ok col df) as [qi [Hrun [Hkeys _]]].
  exists qi. split; [exact Hrun|]. rewrite Hkeys. split.
  - apply sorted_keys_sorted.
  - intros k. rewrite In_sorted_keys. apply In_names.
Qed.

(** C8: a neighbourhood all of whose rows have another rental type than
    the selected one or a construction era outside the selection is not a
    key of the aggregated mapping; and no entry of the mapping has an
    empty list of lines. *)
Theorem excluded_quartier_absent (c : criteria) (col : loyer_col)
  (data : list data_row) (n : string) :
  (forall r, In r data -> nom_quartier r = Some n ->
             type_location r <> type_loc c \/
             ~ In (epoque_construction r) (epoque_selection c)) ->
  exists quartiers_info,
    aggregate col (estimate c col (df_filtered c data)) = Ok quartiers_info /\
    ~ In n (map fst quartiers_info) /\
    forall k i, In (k, i) quartiers_info -> lines (tooltip i) <> [].
Proof.
  intros Hout.
  destruct (aggregate_ok col (estimate c col (df_filtered c data)))
    as [qi [Hrun [Hkeys Hsum]]].
  exists qi. split; [exact Hrun|]. split.
  - rewrite Hkeys, In_sorted_keys, In_names_estimate.
    intros [r [Hr Hn]]. apply In_df_filtered in Hr as [Hr [Ht He]].
    destruct (Hout r Hr Hn); tauto.
  - intros k i Hin.
    assert (Hk : In k (names (estimate c col (df_filtered c data)))).
    { rewrite <- In_sorted_keys, <- Hkeys. apply In_fst. eauto. }
    apply Hsum, summarise_fields in Hin as [_ [-> _]]. simpl.
    intros E. apply map_eq_nil in E. revert E.
    now apply stable_sort_nonempty, group_nonempty.
Qed.

Lemma excluded_quartier_absent_witness :
  exists quartiers_info,
    aggregate col_loyer_majore
      (estimate Sample.wish col_loyer_majore
         (df_filtered Sample.wish
            (map (@clean_row Ref.decoders)
               [Sample.studio; Sample.two_rooms; Sample.recent])))
    = Ok quartiers_info /\
    ~ In "Quartier B"%string (map fst quartiers_info) /\
    forall k i, In (k, i) quartiers_info -> lines (tooltip i) <> [].
Proof.
  apply excluded_quartier_absent.
  intros r [<-|[<-|[<-|[]]]]; simpl; intros H; try discriminate.
  right. intros [E|[]]. discriminate.
Defined.

(** C3: a neighbourhood is flagged accessible exactly when one of its
    eligible rows has an estimated rent within the budget; and when the
    only such row of a neighbourhood is replaced by a row of the same
    neighbourhood, type and era whose estimate exceeds the budget, the
    flag of that neighbourhood goes from true to false. *)
Theorem accessible_iff_some_within_budget (c : criteria) (col : loyer_col) :
  (forall data, exists quartiers_info,
      aggregate col (estimate c col (df_filtered c data)) = Ok quartiers_info /\
      forall k i, In (k, i) quartiers_info ->
        (accessible i = true <->
         exists e, In e (estimate c col (df_filtered c data)) /\
                   nom_quartier (base e) = Some k /\
                   PrimFloat.leb (loyer_estime e) (float_of_Z (budget c))
                   = true)) /\
  (forall pre post r r' k,
      nom_quartier r = Some k -> nom_quartier r' = Some k ->
      df_filtered c [r] = [r] -> df_filtered c [r'] = [r'] ->
      PrimFloat.leb (loyer_estime (estimate_row c col r))
        (float_of_Z (budget c)) = true ->
      PrimFloat.leb (loyer_estime (estimate_row c col r'))
        (float_of_Z (budget c)) = false ->
      (forall x, In x (df_filtered c (pre ++ post)) ->
                 nom_quartier x = Some k ->
                 PrimFloat.leb (loyer_estime (estimate_row c col x))
                   (float_of_Z (budget c)) = false) ->
      exists qi i qi' i',
        aggregate col (estimate c col (df_filtered c (pre ++ r :: post)))
        = Ok qi /\ In (k, i) qi /\ accessible i = true /\
        aggregate col (estimate c col (df_filtered c (pre ++ r' :: post)))
        = Ok qi' /\ In (k, i') qi' /\ accessible i' = false).
Proof.
  assert (Hiff : forall data, exists quartiers_info,
      aggregate col (estimate c col (df_filtered c data)) = Ok quartiers_info /\
      map fst quartiers_info
      = sorted_keys (names (estimate c col (df_filtered c data))) /\
      forall k i, In (k, i) quartiers_info ->
        (accessible i = true <->
         exists e, In e (estimate c col (df_filtered c data)) /\
                   nom_quartier (base e) = Some k /\
                   PrimFloat.leb (loyer_estime e) (float_of_Z (budget c))
                   = true)).
  { intros data.
    destruct (aggregate_ok col (estimate c col (df_filtered c data)))
      as [qi [Hrun [Hkeys Hsum]]].
    exists qi. repeat split; auto.
    - intros Hacc. apply Hsum, summarise_fields in H as [Ha _].
      rewrite Ha in Hacc. apply existsb_exists in Hacc as [e [He Hb]].
      apply filter_In in He as [He Hn]. apply named_iff in Hn.
      exists e. repeat split; auto.
      apply In_estimate in He as [r [_ ->]]. exact Hb.
    - intros [e [He [Hn Hb]]].
      apply Hsum, summarise_fields in H as [-> _].
      apply existsb_exists. exists e. split.
      + apply filter_In. split; [exact He|now apply named_iff].
      + apply In_estimate in He as [r [_ ->]]. exact Hb. }
  split.
  - intros data. destruct (Hiff data) as [qi [Hrun [_ H]]]. eauto.
  - intros pre post r r' k Hk Hk' Hr Hr' Hin Hout Hothers.
    assert (Hmid : forall x, df_filtered c [x] = [x] ->
                             In x (df_filtered c (pre ++ x :: post))).
    { intros x Hx.
      assert (H : In x (df_filtered c [x])) by (rewrite Hx; now left).
      apply In_df_filtered in H as [_ H]. apply In_df_filtered.
      split; [apply in_elt|exact H]. }
    assert (Hsplit : forall x y, In y (df_filtered c (pre ++ x :: post)) ->
                                 y = x \/ In y (df_filtered c (pre ++ post))).
    { intros x y. rewrite !In_df_filtered, !in_app_iff. simpl.
      intuition. }
    destruct (Hiff (pre ++ r :: post)) as [qi [Hrun [Hkeys Hacc]]].
    destruct (Hiff (pre ++ r' :: post)) as [qi' [Hrun' [Hkeys' Hacc']]].
    assert (Hi : exists i, In (k, i) qi).
    { apply In_fst. rewrite Hkeys, In_sorted_keys, In_names_estimate. eauto. }
    assert (Hi' : exists i', In (k, i') qi').
    { apply In_fst. rewrite Hkeys', In_sorted_keys, In_names_estimate. eauto. }
    destruct Hi as [i Hi], Hi' as [i' Hi'].
    exists qi, i, qi', i'. repeat split; auto.
    + apply (Hacc k i Hi). exists (estimate_row c col r).
      repeat split; auto. apply In_estimate. eauto.
    + apply not_true_is_false. intros Ht.
      apply (Hacc' k i' Hi') in Ht as [e [He [Hn Hb]]].
      apply In_estimate in He as [x [Hx ->]]. simpl in Hn.
      apply Hsplit in Hx as [->|Hx]; [congruence|].
      rewrite (Hothers x Hx Hn) in Hb. discriminate.
Qed.

Lemma accessible_flip_witness :
  exists qi i qi' i',
    aggregate col_loyer_majore
      (estimate Sample.wish col_loyer_majore
         (df_filtered Sample.wish
            ([] ++ @clean_row Ref.decoders Sample.studio :: [])))
    = Ok qi /\ In ("Quartier A"%string, i) qi /\ accessible i = true /\
    aggregate col_loyer_majore
      (estimate Sample.wish col_loyer_majore
         (df_filtered Sample.wish
            ([] ++ @clean_row Ref.decoders Sample.two_rooms :: [])))
    = Ok qi' /\ In ("Quartier A"%string, i') qi' /\ accessible i' = false.
Proof.
  apply (proj2 (accessible_iff_some_within_budget Sample.wish
                  col_loyer_majore));
    try reflexivity.
  intros x [].
Defined.

(** ** What [load_data] guarantees of a row *)

Section LoadDataRows.
Context {D : Decoders}.

Lemma In_load_data (df : list csv_row) (r : data_row) :
  In r (fst (load_data (Frame df))) <->
  exists r0, In r0 df /\ kept r0 = true /\ r = clean_row r0.
Proof.
  rewrite load_data_rows, in_map_iff. split.
  - intros [r0 [<- H]]. apply filter_In in H as [H1 H2]. eauto.
  - intros [r0 [H1 [H2 ->]]]. exists r0. split; [reflexivity|].
    now apply filter_In.
Qed.

Lemma load_data_complete (src : response) (r : data_row) :
  In r (fst (load_data src)) ->
  complete r = true /\ isna (geo_points r) = false.
Proof.
  destruct src as [| |df]; simpl; try tauto.
  intros H. apply (In_load_data df r) in H as [r0 [_ [Hk ->]]].
  unfold kept in Hk. rewrite !andb_true_iff, negb_true_iff in Hk.
  destruct Hk as [[_ Hc] Hg]. split; [exact Hc|exact Hg].
Qed.

Lemma load_data_not_nan (src : response) (col : loyer_col) (r : data_row) :
  In r (fst (load_data src)) -> PrimFloat.is_nan (column col r) = false.
Proof.
  intros H. apply load_data_complete in H as [H _].
  unfold complete in H. rewrite !andb_true_iff, !negb_true_iff in H.
  destruct col; simpl; tauto.
Qed.

End LoadDataRows.

(** ** The order of the lines *)

Lemma row_le_total (r1 r2 : est_row) :
  row_le r1 r2 = true \/ row_le r2 r1 = true.
Proof.
  unfold row_le.
  destruct (float_le_na_last_total (loyer_estime r1) (loyer_estime r2))
    as [H|H]; rewrite H;
    destruct (Z.ltb_spec (nb_pieces (base r1)) (nb_pieces (base r2)));
    destruct (Z.ltb_spec (nb_pieces (base r2)) (nb_pieces (base r1)));
    destruct (Z.eqb_spec (nb_pieces (base r1)) (nb_pieces (base r2)));
    destruct (Z.eqb_spec (nb_pieces (base r2)) (nb_pieces (base r1)));
    simpl; auto; lia.
Qed.

Lemma row_le_trans (r1 r2 r3 : est_row) :
  row_le r1 r2 = true -> row_le r2 r3 = true -> row_le r1 r3 = true.
Proof.
  unfold row_le.
  rewrite !orb_true_iff, !andb_true_iff, !Z.ltb_lt, !Z.eqb_eq.
  intros [H1|[H1 F1]] [H2|[H2 F2]]; try (left; lia).
  right. split; [lia|]. eapply float_le_na_last_trans; eauto.
Qed.

Lemma StronglySorted_map_in {A B : Type} (R : A -> A -> Prop)
  (R' : B -> B -> Prop) (f : A -> B) (l : list A) :
  (forall a b, In a l -> In b l -> R a b -> R' (f a) (f b)) ->
  StronglySorted R l -> StronglySorted R' (map f l).
Proof.
  intros Hf Hs. induction Hs as [|a t Hs IH Ha]; simpl; constructor.
  - apply IH. intros x y Hx Hy. apply Hf; now right.
  - rewrite Forall_forall in *. intros y Hy.
    apply in_map_iff in Hy as [x [<- Hx]].
    apply Hf; [now left|now right|now apply Ha].
Qed.

(** C4: in every popup the lines are in non-decreasing order of the
    number of rooms and, for an equal number of rooms, of the estimated
    rent. The frame is the one [load_data] returns and the surface is
    within the bounds of its widget. *)
Theorem lines_sorted {D : Decoders} (src : response) (c : criteria)
  (col : loyer_col) :
  10 <= surface c <= 200 ->
  exists quartiers_info,
    aggregate col (estimate c col (df_filtered c (fst (load_data src))))
    = Ok quartiers_info /\
    forall k i, In (k, i) quartiers_info ->
                StronglySorted item_le (lines (tooltip i)).
Proof.
  intros Hs.
  set (df := estimate c col (df_filtered c (fst (load_data src)))).
  destruct (aggregate_ok col df) as [qi [Hrun [_ Hsum]]].
  exists qi. split; [exact Hrun|]. intros k i Hin.
  apply Hsum, summarise_fields in Hin as [_ [-> _]]. simpl.
  assert (Hnan : forall e, In e (stable_sort row_le (filter (named k) df)) ->
                           PrimFloat.is_nan (loyer_estime e) = false).
  { intros e He.
    apply (Permutation_in _ (Permutation_sym (stable_sort_perm row_le _)))
      in He.
    apply filter_In in He as [He _]. apply In_estimate in He as [r [Hr ->]].
    apply In_df_filtered in Hr as [Hr _]. simpl.
    apply mul_surface_not_nan; [|exact Hs].
    now apply (load_data_not_nan src). }
  apply (StronglySorted_map_in (fun a b => row_le a b = true)).
  - intros a b Ha Hb. unfold row_le, item_le. simpl.
    rewrite float_le_na_last_leb by auto.
    rewrite orb_true_iff, andb_true_iff, Z.ltb_lt, Z.eqb_eq. tauto.
  - apply stable_sort_sorted; [apply row_le_total|apply row_le_trans].
Qed.

Lemma lines_sorted_witness :
  exists quartiers_info,
    aggregate col_loyer_majore
      (estimate Sample.wish col_loyer_majore
         (df_filtered Sample.wish
            (fst (@load_data Ref.decoders
                    (Frame [Sample.two_rooms; Sample.studio])))))
    = Ok quartiers_info /\
    forall k i, In (k, i) quartiers_info ->
                StronglySorted item_le (lines (tooltip i)).
Proof.
  apply (@lines_sorted Ref.decoders). simpl. lia.
Defined.

(** ** Claims on the estimate *)

(** C2: the estimated rent of every row that passed the filter is the
    selected rent per square metre times the surface. Each of the three
    labels selects its own column, the estimate keeps the rows of the
    filtered frame as they are, and it reads no other rent column than
    the selected one. *)
Theorem estimate_selected_tier (c : criteria) (data : list data_row) :
  dict_get col_loyer_map "Loyers de référence majorés" = Ok col_loyer_majore /\
  dict_get col_loyer_map "Loyers de référence" = Ok col_loyer_ref /\
  dict_get col_loyer_map "Loyers de référence minorés" = Ok col_loyer_minore /\
  (forall r,
      loyer_estime (estimate_row c col_loyer_majore r)
      = PrimFloat.mul (loyer_majore r) (float_of_Z (surface c)) /\
      loyer_estime (estimate_row c col_loyer_ref r)
      = PrimFloat.mul (loyer_ref r) (float_of_Z (surface c)) /\
      loyer_estime (estimate_row c col_loyer_minore r)
      = PrimFloat.mul (loyer_minore r) (float_of_Z (surface c))) /\
  (forall col,
      map base (estimate c col (df_filtered c data)) = df_filtered c data /\
      Forall (fun e => loyer_estime e
                       = PrimFloat.mul (column col (base e))
                           (float_of_Z (surface c)))
        (estimate c col (df_filtered c data))) /\
  (forall col r r',
      column col r = column col r' ->
      loyer_estime (estimate_row c col r)
      = loyer_estime (estimate_row c col r')).
Proof.
  repeat split; try reflexivity.
  - apply base_estimate.
  - apply Forall_forall. intros e He.
    apply In_estimate in He as [r [_ ->]]. reflexivity.
  - intros col r r' H. simpl. now rewrite H.
Qed.

Lemma float_of_Prim2SF (x y : float) : Prim2SF x = Prim2SF y -> x = y.
Proof.
  intros H. rewrite <- (SF2Prim_Prim2SF x), <- (SF2Prim_Prim2SF y).
  now rewrite H.
Qed.

Lemma mul_by_pos_finite (x y : float) (sx : spec_float) :
  sf_pos_finite (Prim2SF y) = true ->
  Prim2SF x = sx ->
  match sx with
  | S754_infinity _ | S754_nan => True
  | _ => False
  end ->
  PrimFloat.mul x y = x.
Proof.
  intros Hy Hx Hsx. apply float_of_Prim2SF.
  rewrite FloatAxioms.mul_spec, Hx. unfold SF64mul.
  destruct (Prim2SF y) as [| | |[] m e]; try discriminate.
  destruct sx as [| s | |]; try contradiction; simpl; [|reflexivity].
  now destruct s.
Qed.

Lemma leb_pos_finite (y : float) :
  sf_pos_finite (Prim2SF y) = true ->
  PrimFloat.leb PrimFloat.infinity y = false /\
  PrimFloat.leb PrimFloat.neg_infinity y = true /\
  PrimFloat.leb PrimFloat.nan y = false.
Proof.
  intros Hy. rewrite !FloatAxioms.leb_spec.
  destruct (Prim2SF y) as [| | |[] m e]; try discriminate.
  repeat split.
Qed.

(** Every value of the budget widget (300 to 10000) is a positive finite
    float. *)
Lemma budget_pos_finite (b : Z) :
  300 <= b <= 10000 -> sf_pos_finite (Prim2SF (float_of_Z b)) = true.
Proof.
  intros Hb.
  assert (H : forallb (fun n => sf_pos_finite
                                  (Prim2SF (float_of_Z (Z.of_nat n + 300))))
                (seq 0 (Z.to_nat 9701)) = true) by (vm_compute; reflexivity).
  rewrite forallb_forall in H.
  specialize (H (Z.to_nat (b - 300))).
  replace (Z.of_nat (Z.to_nat (b - 300)) + 300) with b in H by lia.
  apply H, in_seq. lia.
Qed.

(** C6, as the code has it: a rent that is not finite raises nothing. With
    the surface and the budget within the bounds of their widgets, the
    estimator returns a row whose estimate is the rent itself: plus
    infinity, outside the budget; minus infinity, within the budget; NaN,
    outside the budget. *)
Theorem non_finite_rent_is_estimated (c : criteria) (col : loyer_col)
  (r : data_row) :
  10 <= surface c <= 200 -> 300 <= budget c <= 10000 ->
  (column col r = PrimFloat.infinity ->
   estimate c col [r] = [mk_est_row r PrimFloat.infinity false]) /\
  (column col r = PrimFloat.neg_infinity ->
   estimate c col [r] = [mk_est_row r PrimFloat.neg_infinity true]) /\
  (column col r = PrimFloat.nan ->
   estimate c col [r] = [mk_est_row r PrimFloat.nan false]).
Proof.
  intros Hs Hb.
  apply surface_pos_finite in Hs. apply budget_pos_finite in Hb.
  destruct (leb_pos_finite _ Hb) as [Hi [Hn Hnan]].
  unfold estimate, estimate_row. simpl.
  repeat split; intros ->.
  - rewrite (mul_by_pos_finite PrimFloat.infinity _ (S754_infinity false) Hs
               eq_refl I).
    now rewrite Hi.
  - rewrite (mul_by_pos_finite PrimFloat.neg_infinity _ (S754_infinity true)
               Hs eq_refl I).
    now rewrite Hn.
  - rewrite (mul_by_pos_finite PrimFloat.nan _ S754_nan Hs eq_refl I).
    now rewrite Hnan.
Qed.

Lemma non_finite_rent_is_estimated_witness :
  (column col_loyer_majore
     (Sample.dwelling PrimFloat.infinity Sample.polygon_coordinates)
   = PrimFloat.infinity ->
   estimate Sample.wish col_loyer_majore
     [Sample.dwelling PrimFloat.infinity Sample.polygon_coordinates]
   = [mk_est_row
        (Sample.dwelling PrimFloat.infinity Sample.polygon_coordinates)
        PrimFloat.infinity false]) /\
  (column col_loyer_majore
     (Sample.dwelling PrimFloat.infinity Sample.polygon_coordinates)
   = PrimFloat.neg_infinity ->
   estimate Sample.wish col_loyer_majore
     [Sample.dwelling PrimFloat.infinity Sample.polygon_coordinates]
   = [mk_est_row
        (Sample.dwelling PrimFloat.infinity Sample.polygon_coordinates)
        PrimFloat.neg_infinity true]) /\
  (column col_loyer_majore
     (Sample.dwelling PrimFloat.infinity Sample.polygon_coordinates)
   = PrimFloat.nan ->
   estimate Sample.wish col_loyer_majore
     [Sample.dwelling PrimFloat.infinity Sample.polygon_coordinates]
   = [mk_est_row
        (Sample.dwelling PrimFloat.infinity Sample.polygon_coordinates)
        PrimFloat.nan false]).
Proof.
  apply non_finite_rent_is_estimated; simpl; lia.
Defined.

(** C6 as stated fails: for an infinite capped rent the estimator returns
    a row, and the aggregation and the map are built from it. *)
Lemma infinite_rent_yields_a_row :
  estimate Sample.wish col_loyer_majore
    [Sample.dwelling PrimFloat.infinity Sample.polygon_coordinates]
  = [mk_est_row
       (Sample.dwelling PrimFloat.infinity Sample.polygon_coordinates)
       PrimFloat.infinity false] /\
  exists i p,
    snd (page [Sample.dwelling PrimFloat.infinity Sample.polygon_coordinates]
           Sample.wish)
    = Ok (Map [("Quartier A"%string, i)] [p]) /\
    map item_loyer_estime (lines (tooltip i)) = [PrimFloat.infinity].
Proof.
  split; [reflexivity|].
  eexists. eexists. split; reflexivity.
Qed.

(** ** Claims on [load_data] *)

Section LoadDataClaims.
Context {D : Decoders}.

Lemma clean_no_2025 (df : list csv_row) :
  filter_annee df = [] -> clean df = Ok ([], [Warning msg_no_data_2025]).
Proof. unfold clean. now intros ->. Qed.

(** C5, as the code has it: whenever the year filter leaves nothing, be it
    that the table has rows of other years only or no row at all, the
    script shows the same two messages and no map. Only a failed request
    or a body that cannot be read is reported otherwise, as an error. *)
Theorem empty_year_signal (c : criteria) :
  (forall df, filter_annee df = [] ->
              script (Frame df) c
              = ([Warning msg_no_data_2025; Error msg_unavailable], Ok NoMap)) /\
  script RequestFailed c
  = ([Error msg_load_error; Error msg_unavailable], Ok NoMap) /\
  script ReadFailed c
  = ([Error msg_unexpected; Error msg_unavailable], Ok NoMap).
Proof.
  repeat split. intros df H. unfold script, load_data.
  now rewrite (clean_no_2025 df H).
Qed.

(** C7, as the code has it: in every row that [load_data] returns the
    three rents are not NaN, and a row of the table reaches the result
    exactly when its year is 2025, its three rents coerce to something
    else than NaN, its geometry and name cells are present and its decoded
    coordinates are not null. Sign and finiteness are not looked at. *)
Theorem load_data_rents_not_null :
  (forall src r, In r (fst (load_data src)) ->
                 PrimFloat.is_nan (loyer_ref r) = false /\
                 PrimFloat.is_nan (loyer_majore r) = false /\
                 PrimFloat.is_nan (loyer_minore r) = false) /\
  (forall df r,
      In r (fst (load_data (Frame df))) <->
      exists r0, In r0 df /\ r = clean_row r0 /\
                 annee r0 = 2025 /\
                 PrimFloat.is_nan (coerce_loyer (loyer_ref r0)) = false /\
                 PrimFloat.is_nan (coerce_loyer (loyer_majore r0)) = false /\
                 PrimFloat.is_nan (coerce_loyer (loyer_minore r0)) = false /\
                 geo_shape r0 <> None /\ nom_quartier r0 <> None /\
                 isna (coordinates_of (geo_shape r0)) = false).
Proof.
  split.
  - intros src r H. repeat split.
    + apply (load_data_not_nan src col_loyer_ref r H).
    + apply (load_data_not_nan src col_loyer_majore r H).
    + apply (load_data_not_nan src col_loyer_minore r H).
  - intros df r. rewrite In_load_data.
    assert (Hk : forall r0,
               kept r0 = true <->
               annee r0 = 2025 /\
               PrimFloat.is_nan (coerce_loyer (loyer_ref r0)) = false /\
               PrimFloat.is_nan (coerce_loyer (loyer_majore r0)) = false /\
               PrimFloat.is_nan (coerce_loyer (loyer_minore r0)) = false /\
               geo_shape r0 <> None /\ nom_quartier r0 <> None /\
               isna (coordinates_of (geo_shape r0)) = false).
    { intros r0. unfold kept, complete. simpl.
      rewrite !andb_true_iff, !negb_true_iff, Z.eqb_eq.
      destruct (geo_shape r0), (nom_quartier r0); simpl;
        intuition congruence. }
    split; intros [r0 H]; exists r0; rewrite Hk in *; tauto.
Qed.

Lemma undecoded_not_kept (r : csv_row) :
  kept r = true -> undecoded r = false.
Proof.
  unfold kept, undecoded, coordinates_of.
  rewrite !andb_true_iff, negb_true_iff. intros [_ H].
  destruct (safe_json_load (geo_shape r)) as [[]|]; simpl in *; congruence.
Qed.

(** C1, as the code has it: a row whose geometry cell does not decode is
    dropped by [load_data]. The frame, and with it the accessibility
    flags, the lines and the map, are those of the table without such
    rows. *)
Theorem undecoded_rows_dropped (df : list csv_row) (c : criteria) :
  fst (load_data (Frame df))
  = fst (load_data (Frame (filter (fun r => negb (undecoded r)) df))) /\
  snd (script (Frame df) c)
  = snd (script (Frame (filter (fun r => negb (undecoded r)) df)) c).
Proof.
  assert (H : fst (load_data (Frame df))
              = fst (load_data
                       (Frame (filter (fun r => negb (undecoded r)) df)))).
  { rewrite !load_data_rows, filter_filter. f_equal. apply filter_ext.
    intros r. destruct (kept r) eqn:E; [|now rewrite andb_false_r].
    now rewrite (undecoded_not_kept r E). }
  split; [exact H|]. unfold script.
  destruct (load_data (Frame df)) as [data shown].
  destruct (load_data (Frame _)) as [data' shown'].
  simpl in H. subst data'. now destruct (page data c).
Qed.

End LoadDataClaims.

(** C1 as stated fails: the cheap dwelling of Quartier A has a geometry
    cell that does not decode; with it gone the neighbourhood is flagged
    not accessible and its popup has the line of the other dwelling
    only. *)
Lemma undecoded_row_leaves_accessibility :
  @undecoded Ref.decoders Sample.studio_bad_shape = true /\
  dans_le_budget
    (estimate_row Sample.wish col_loyer_majore
       (@clean_row Ref.decoders Sample.studio_bad_shape)) = true /\
  exists i m,
    snd (@script Ref.decoders
           (Frame [Sample.studio_bad_shape; Sample.two_rooms]) Sample.wish)
    = Ok (Map [("Quartier A"%string, i)] m) /\
    accessible i = false /\
    map item_nb_pieces (lines (tooltip i)) = [2].
Proof.
  split; [reflexivity|]. split; [reflexivity|].
  eexists. eexists. split; [reflexivity|]. split; reflexivity.
Qed.

(** C5 as stated fails: a table without any row and a table whose only
    row is of 2024 are reported alike. *)
Lemma empty_table_and_other_year_alike :
  @script Ref.decoders (Frame []) Sample.wish
  = ([Warning msg_no_data_2025; Error msg_unavailable], Ok NoMap) /\
  @script Ref.decoders (Frame [Sample.last_year]) Sample.wish
  = ([Warning msg_no_data_2025; Error msg_unavailable], Ok NoMap).
Proof. split; reflexivity. Qed.

Lemma empty_year_signal_witness :
  @script Ref.decoders (Frame [Sample.last_year]) Sample.wish
  = ([Warning msg_no_data_2025; Error msg_unavailable], Ok NoMap).
Proof.
  apply (proj1 (@empty_year_signal Ref.decoders Sample.wish)). reflexivity.
Defined.

(** C7 as stated fails: a row whose reference rent is negative is
    retained, with the negative value. *)
Lemma negative_rent_retained :
  map loyer_ref
    (fst (@load_data Ref.decoders (Frame [Sample.negative_rent])))
  = [(-5)%float] /\
  PrimFloat.ltb (-5)%float 0%float = true.
Proof. split; reflexivity. Qed.

(** ** Claims on the geometry *)

Lemma inverted_point (p : pyobj) :
  is_point p = true -> inverted p = Ok (swap_axes p).
Proof.
  destruct p as [| | | | |[|lon [|lat t]]|]; try discriminate. reflexivity.
Qed.

Lemma inverted_ring (ring : list pyobj) :
  forallb is_point ring = true ->
  comprehension inverted ring = Ok (map swap_axes ring).
Proof.
  induction ring as [|p t IH]; simpl; [reflexivity|].
  rewrite andb_true_iff. intros [Hp Ht].
  now rewrite (inverted_point p Hp), (IH Ht).
Qed.

Lemma inverted_contained (p : pyobj) :
  is_dict p = false -> contained (inverted p).
Proof.
  unfold inverted. intros H.
  destruct p as [| | | |s|l|]; simpl; try exact I; try discriminate.
  - destruct s as [|a [|b s]]; simpl; exact I.
  - destruct l as [|a [|b l]]; simpl; exact I.
Qed.

Lemma comprehension_contained (points : list pyobj) :
  forallb (fun p => negb (is_dict p)) points = true ->
  contained (comprehension inverted points).
Proof.
  induction points as [|p t IH]; simpl; [intros _; exact I|].
  rewrite andb_true_iff, negb_true_iff. intros [Hp Ht].
  pose proof (inverted_contained p Hp) as H1. specialize (IH Ht).
  destruct (inverted p) as [v|e]; simpl; [|exact H1].
  destruct (comprehension inverted t) as [vs|e]; simpl; [exact I|exact IH].
Qed.

Lemma points_inverted_contained (geo : pyobj) :
  no_dict_on_path geo = true -> contained (points_inverted geo).
Proof.
  unfold points_inverted.
  destruct geo as [| | | |s|l|]; simpl; try (intros _; exact I);
    try discriminate.
  - intros _. destruct s as [|a s]; simpl; exact I.
  - destruct l as [|g0 l]; simpl; [intros _; exact I|].
    destruct g0 as [| | | |s|points|kv]; simpl; try (intros _; exact I).
    + intros _. apply comprehension_contained.
      induction (list_ascii_of_string s); simpl; auto.
    + apply comprehension_contained.
    + intros _. apply comprehension_contained.
      induction kv; simpl; auto.
Qed.

Lemma render_contained (quartiers_info : list (string * info)) :
  Forall (fun entry => contained (points_inverted (info_geo_points (snd entry))))
    quartiers_info ->
  forall m0, exists m,
    render quartiers_info m0 = Ok (m0 ++ m) /\
    map label m = map fst (filter renderable quartiers_info).
Proof.
  induction 1 as [|[q i] rest Hq Hrest IH]; intros m0; simpl.
  - exists []. now rewrite app_nil_r.
  - unfold renderable at 1. simpl in *.
    destruct (points_inverted (info_geo_points i)) as [pts|[]];
      try contradiction.
    + destruct (IH (m0 ++ [mk_polygon pts (if accessible i then green else red)
                             q (tooltip i)])) as [m [Hrun Hlab]].
      eexists (_ :: m). rewrite Hrun, <- app_assoc. simpl.
      split; [reflexivity|now rewrite Hlab].
    + apply IH.
    + apply IH.
Qed.

(** C9, as the code has it. For coordinates nested as those of a Polygon
    (the first element is a list of points, each a list of two components
    or more) the list handed to the map is that first element with the
    first two components of every point swapped. When line 176 raises
    [TypeError] or [IndexError] (which is all it can raise when no dict
    is met) the loop goes on: the map gets a polygon for the
    neighbourhoods whose geometry went through, in the order of the
    mapping, and the mapping keeps every entry. *)
Theorem points_inverted_polygon :
  (forall ring rest,
      forallb is_point ring = true ->
      points_inverted (PyList (PyList ring :: rest))
      = Ok (map swap_axes ring)) /\
  (forall geo, no_dict_on_path geo = true -> contained (points_inverted geo)) /\
  (forall quartiers_info,
      Forall (fun entry =>
                contained (points_inverted (info_geo_points (snd entry))))
        quartiers_info ->
      exists m,
        render quartiers_info [] = Ok m /\
        map label m = map fst (filter renderable quartiers_info)).
Proof.
  repeat split.
  - intros ring rest H. unfold points_inverted. simpl.
    now apply inverted_ring.
  - apply points_inverted_contained.
  - intros qi H. destruct (render_contained qi H []) as [m Hm].
    exists m. exact Hm.
Qed.

Lemma points_inverted_polygon_witness :
  points_inverted Sample.polygon_coordinates
  = Ok (map swap_axes Sample.ring).
Proof.
  apply (proj1 points_inverted_polygon). reflexivity.
Defined.

(** C9 as stated fails on a well-formed MultiPolygon: the code pairs the
    second and first points of its first ring instead of swapping the
    axes of every point of that ring. *)
Lemma multipolygon_not_unwrapped :
  GeometrySpec.well_formed Sample.multipolygon_coordinates = true /\
  GeometrySpec.renderer_ready Sample.multipolygon_coordinates
  = [Sample.pt 48.5 2.25; Sample.pt 48.5 2.5; Sample.pt 48.75 2.5;
     Sample.pt 48.5 2.25] /\
  points_inverted Sample.multipolygon_coordinates
  = Ok [PyList [Sample.pt 2.5 48.5; Sample.pt 2.25 48.5]].
Proof. repeat split. Qed.

(** Coordinates that are a JSON object raise [KeyError] at line 176, which
    the handler of line 198 does not name: the script ends there. *)
Example object_coordinates_end_the_script :
  snd (@script Ref.decoders
         (Frame [Sample.studio_object_shape; Sample.two_rooms]) Sample.wish)
  = Raise KeyError.
Proof. reflexivity. Qed.

(** ** The script as a whole *)

(** When the script shows a map, the mapping and the polygons are those
    of the pipeline run on the frame of [load_data] with the column that
    the selected label names. *)
Lemma script_map {D : Decoders} (src : response) (c : criteria)
  (quartiers_info : list (string * info)) (m : list polygon) :
  snd (script src c) = Ok (Map quartiers_info m) ->
  exists col,
    dict_get col_loyer_map (loyer_a_utiliser c) = Ok col /\
    aggregate col (estimate c col (df_filtered c (fst (load_data src))))
    = Ok quartiers_info /\
    render quartiers_info [] = Ok m.
Proof.
  unfold script. destruct (load_data src) as [data shown]. cbn [fst].
  unfold page. destruct data as [|r0 data]; [discriminate|].
  destruct (dict_get col_loyer_map (loyer_a_utiliser c)) as [col|e];
    [|discriminate].
  destruct (df_filtered c (r0 :: data)) as [|r1 df]; [discriminate|].
  cbn [snd]. intros H. exists col. split; [reflexivity|].
  destruct (aggregate col (estimate c col (r1 :: df))) as [qi|e];
    [|discriminate].
  cbn [bind] in H. destruct (render qi []) as [m'|e] eqn:Er; [|discriminate].
  cbn [bind] in H. inversion H; subst. split; [reflexivity|exact Er].
Qed.

(** The two dwellings of Quartier A with budget 1500, surface 30 and the
    capped rent: the neighbourhood is accessible and its popup has the two
    lines in order, 1200 then 1800 euros. *)
Example quartier_a_round_trip :
  exists i p,
    @script Ref.decoders (Frame [Sample.two_rooms; Sample.studio]) Sample.wish
    = ([], Ok (Map [("Quartier A"%string, i)] [p])) /\
    accessible i = true /\
    map item_loyer_estime (lines (tooltip i)) = [1200%float; 1800%float] /\
    color p = green /\
    locations p = map swap_axes Sample.ring.
Proof.
  eexists. eexists. split; [reflexivity|]. repeat split.
Qed.

(** * Further properties of the code *)

(** ** Decoding and cleaning *)

Section LoadDataMore.
Context {D : Decoders}.

(** X1: [safe_json_load] never raises. It returns the member
    ['coordinates'] when the cell is text that decodes to an object
    having one, and [None] in every other case: a cell that is not text,
    text that is not JSON, JSON that is not an object, an object without
    that member. *)
Theorem safe_json_load_cases (x : option string) :
  exists v,
    safe_json_load x = Ok v /\
    ((exists s kv, x = Some s /\ json_loads s = Some (PyDict kv) /\
                   dict_get kv "coordinates" = Ok v) \/
     (v = PyNone /\
      forall s kv, x = Some s -> json_loads s = Some (PyDict kv) ->
                   dict_get kv "coordinates" = Raise KeyError)).
Proof.
  unfold safe_json_load, loads.
  destruct x as [s|]; simpl.
  - destruct (json_loads s) as [o|] eqn:Eo; simpl.
    + destruct o; simpl;
        try (exists PyNone; split; [reflexivity|right; split;
             [reflexivity|intros s' kv' H; inversion H; subst; congruence]]).
      destruct (dict_get kv "coordinates") as [c|e] eqn:Ec.
      * exists c. split; [reflexivity|]. left. eauto.
      * apply dict_get_raises in Ec as Ee. subst e.
        exists PyNone. split; [reflexivity|]. right. split; [reflexivity|].
        intros s' kv' H1 H2. inversion H1; subst. congruence.
    + exists PyNone. split; [reflexivity|]. right. split; [reflexivity|].
      intros s' kv' H1 H2. inversion H1; subst. congruence.
  - exists PyNone. split; [reflexivity|]. right. split; [reflexivity|].
    discriminate.
Qed.

Lemma replace_comma_idempotent (s : string) :
  replace_comma (replace_comma s) = replace_comma s.
Proof.
  induction s as [|c t IH]; simpl; [reflexivity|]. rewrite IH. f_equal.
  destruct (Ascii.eqb c ",") eqn:E; [reflexivity|now rewrite E].
Qed.

(** X2: a rent written with a decimal comma is coerced to the same number
    as the same text written with a point, whatever the numeric parser
    does; the text handed to the parser holds no comma and has the length
    of the cell. *)
Theorem decimal_comma_as_point (s : string) :
  coerce_loyer (Some (replace_comma s)) = coerce_loyer (Some s) /\
  has_comma (replace_comma s) = false /\
  String.length (replace_comma s) = String.length s.
Proof.
  split; [|split].
  - unfold coerce_loyer. simpl. now rewrite replace_comma_idempotent.
  - induction s as [|c t IH]; simpl; [reflexivity|]. rewrite IH.
    destruct (Ascii.eqb c ",") eqn:E; [reflexivity|now rewrite E].
  - induction s as [|c t IH]; simpl; congruence.
Qed.

(** X3: every row that [load_data] returns is of year 2025, has a name and
    a geometry cell, and carries in [geo_points] the non-null value that
    [safe_json_load] returns on that cell. *)
Theorem load_data_row_invariant (src : response) (r : data_row) :
  In r (fst (load_data src)) ->
  annee r = 2025 /\
  (exists n, nom_quartier r = Some n) /\
  (exists s, geo_shape r = Some s) /\
  safe_json_load (geo_shape r) = Ok (geo_points r) /\
  isna (geo_points r) = false.
Proof.
  destruct src as [| |df]; simpl; try tauto.
  intros H. apply (In_load_data df r) in H as [r0 [_ [Hk ->]]].
  unfold kept, complete in Hk. simpl in Hk.
  rewrite !andb_true_iff, !negb_true_iff, Z.eqb_eq in Hk.
  destruct Hk as [[Hy [[_ Hg] Hn]] Hna]. simpl.
  repeat split; auto.
  - destruct (nom_quartier r0); [eauto|discriminate].
  - destruct (geo_shape r0); [eauto|discriminate].
  - apply safe_json_load_total.
Qed.

(** X4: the rows are cleaned one by one: the frame of a table made of two
    parts is the frame of the first part followed by the frame of the
    second. No row changes what becomes of another. *)
Theorem load_data_app (df1 df2 : list csv_row) :
  fst (load_data (Frame (df1 ++ df2)))
  = fst (load_data (Frame df1)) ++ fst (load_data (Frame df2)).
Proof.
  rewrite !load_data_rows, filter_app, map_app. reflexivity.
Qed.

Lemma clean_some_2025 (df : list csv_row) :
  filter_annee df <> [] -> clean df = Ok (map clean_row (filter kept df), []).
Proof.
  intros Hne. destruct (clean_rows df) as [shown Hc]. rewrite Hc.
  unfold clean in Hc. destruct (filter_annee df) as [|r0 t]; [congruence|].
  destruct (comprehension with_geo_points _) as [df'|e]; simpl in Hc;
    [|discriminate].
  inversion Hc; subst. reflexivity.
Qed.

(** X5: the warning of [load_data] is about the year only. When the table
    has a row of 2025, [load_data] shows nothing, also when cleaning
    leaves no row at all; the script then shows the closing error alone
    and no map. *)
Theorem cleaning_drops_silently (df : list csv_row) (c : criteria) :
  filter_annee df <> [] ->
  snd (load_data (Frame df)) = [] /\
  (fst (load_data (Frame df)) = [] ->
   script (Frame df) c = ([Error msg_unavailable], Ok NoMap)).
Proof.
  intros Hne. unfold script, load_data.
  rewrite (clean_some_2025 df Hne). simpl.
  split; [reflexivity|]. now intros ->.
Qed.

End LoadDataMore.

Lemma load_data_row_invariant_witness :
  annee (@clean_row Ref.decoders Sample.studio) = 2025 /\
  (exists n, nom_quartier (@clean_row Ref.decoders Sample.studio) = Some n) /\
  (exists s, geo_shape (@clean_row Ref.decoders Sample.studio) = Some s) /\
  @safe_json_load Ref.decoders
    (geo_shape (@clean_row Ref.decoders Sample.studio))
  = Ok (geo_points (@clean_row Ref.decoders Sample.studio)) /\
  isna (geo_points (@clean_row Ref.decoders Sample.studio)) = false.
Proof.
  apply (@load_data_row_invariant Ref.decoders
           (Frame [Sample.last_year; Sample.studio])).
  left. reflexivity.
Defined.

Lemma cleaning_drops_silently_witness :
  snd (@load_data Ref.decoders (Frame [Sample.studio_bad_shape])) = [] /\
  (fst (@load_data Ref.decoders (Frame [Sample.studio_bad_shape])) = [] ->
   @script Ref.decoders (Frame [Sample.studio_bad_shape]) Sample.wish
   = ([Error msg_unavailable], Ok NoMap)).
Proof.
  apply (@cleaning_drops_silently Ref.decoders). discriminate.
Defined.

(** ** The summaries *)

(** X6: the popup of a neighbourhood is headed by its name and has one
    line for each row of the frame that carries the name, no more and no
    fewer: its lines are a rearrangement of the lines of those rows. *)
Theorem popup_lines_are_the_group (col : loyer_col) (df : list est_row) :
  exists quartiers_info,
    aggregate col df = Ok quartiers_info /\
    forall k i, In (k, i) quartiers_info ->
      title (tooltip i) = k /\
      Permutation (lines (tooltip i))
        (map (line_of col) (filter (named k) df)) /\
      List.length (lines (tooltip i)) = List.length (filter (named k) df).
Proof.
  destruct (aggregate_ok col df) as [qi [Hrun [_ Hsum]]].
  exists qi. split; [exact Hrun|]. intros k i Hin.
  apply Hsum, summarise_fields in Hin as [_ [-> _]]. simpl.
  repeat split.
  - apply Permutation_map, Permutation_sym, stable_sort_perm.
  - rewrite length_map. apply Permutation_length, Permutation_sym,
      stable_sort_perm.
Qed.

Lemma filter_first {A : Type} (p : A -> bool) (l : list A) (r : A) :
  hd_error (filter p l) = Some r ->
  exists pre post,
    l = pre ++ r :: post /\ p r = true /\ forall x, In x pre -> p x = false.
Proof.
  induction l as [|a t IH]; simpl; [discriminate|].
  destruct (p a) eqn:E; simpl.
  - intros H. inversion H; subst. exists [], t. repeat split; auto.
    intros x [].
  - intros H. destruct (IH H) as [pre [post [-> [Hr Hpre]]]].
    exists (a :: pre), post. repeat split; auto.
    intros x [<-|Hx]; auto.
Qed.

(** X7: the geometry kept for a neighbourhood is that of the first row of
    the frame that carries its name, in frame order and not in the order
    of the popup. *)
Theorem geometry_of_first_row (col : loyer_col) (df : list est_row) :
  exists quartiers_info,
    aggregate col df = Ok quartiers_info /\
    forall k i, In (k, i) quartiers_info ->
      exists pre r post,
        df = pre ++ r :: post /\
        nom_quartier (base r) = Some k /\
        (forall x, In x pre -> nom_quartier (base x) <> Some k) /\
        info_geo_points i = geo_points (base r).
Proof.
  destruct (aggregate_ok col df) as [qi [Hrun [_ Hsum]]].
  exists qi. split; [exact Hrun|]. intros k i Hin.
  apply Hsum, summarise_fields in Hin as [_ [_ [r [Hhd Hgeo]]]].
  apply filter_first in Hhd as [pre [post [Hdf [Hr Hpre]]]].
  exists pre, r, post. repeat split; auto.
  - now apply named_iff.
  - intros x Hx Hn. apply named_iff in Hn. rewrite (Hpre x Hx) in Hn.
    discriminate.
Qed.

(** X8: no eligible row is lost between [load_data] and the popups: every
    row of the filtered frame has a name, its neighbourhood is a key of
    the mapping, and its line is in the popup of that neighbourhood. *)
Theorem every_eligible_row_has_a_line {D : Decoders} (src : response)
  (c : criteria) (col : loyer_col) (r : data_row) :
  In r (df_filtered c (fst (load_data src))) ->
  exists quartiers_info k i,
    aggregate col (estimate c col (df_filtered c (fst (load_data src))))
    = Ok quartiers_info /\
    nom_quartier r = Some k /\
    In (k, i) quartiers_info /\
    In (line_of col (estimate_row c col r)) (lines (tooltip i)).
Proof.
  intros Hr.
  set (df := estimate c col (df_filtered c (fst (load_data src)))).
  destruct (aggregate_ok col df) as [qi [Hrun [Hkeys Hsum]]].
  assert (Hn : exists k, nom_quartier r = Some k).
  { apply In_df_filtered in Hr as [Hr _].
    apply load_data_complete in Hr as [Hc _]. unfold complete in Hc.
    rewrite !andb_true_iff, !negb_true_iff in Hc.
    destruct (nom_quartier r); [eauto|]. simpl in Hc. intuition congruence. }
  destruct Hn as [k Hk].
  assert (He : In (estimate_row c col r) df) by (apply In_estimate; eauto).
  assert (Hi : exists i, In (k, i) qi).
  { apply In_fst. rewrite Hkeys, In_sorted_keys, In_names. eauto. }
  destruct Hi as [i Hi]. exists qi, k, i. repeat split; auto.
  apply Hsum, summarise_fields in Hi as [_ [-> _]]. simpl.
  apply in_map.
  apply (Permutation_in _ (stable_sort_perm row_le _)).
  apply filter_In. split; [exact He|now apply named_iff].
Qed.

Lemma every_eligible_row_has_a_line_witness :
  exists quartiers_info k i,
    aggregate col_loyer_majore
      (estimate Sample.wish col_loyer_majore
         (df_filtered Sample.wish
            (fst (@load_data Ref.decoders
                    (Frame [Sample.two_rooms; Sample.studio])))))
    = Ok quartiers_info /\
    nom_quartier (@clean_row Ref.decoders Sample.studio) = Some k /\
    In (k, i) quartiers_info /\
    In (line_of col_loyer_majore
          (estimate_row Sample.wish col_loyer_majore
             (@clean_row Ref.decoders Sample.studio)))
       (lines (tooltip i)).
Proof.
  apply (@every_eligible_row_has_a_line Ref.decoders).
  right. left. reflexivity.
Defined.

(** ** The budget *)

Lemma float_leb_trans (x y z : float) :
  PrimFloat.leb x y = true -> PrimFloat.leb y z = true ->
  PrimFloat.leb x z = true.
Proof. rewrite !FloatAxioms.leb_spec. apply SFleb_trans. Qed.

Lemma budget_step (n : Z) :
  300 <= n < 10000 ->
  PrimFloat.leb (float_of_Z n) (float_of_Z (n + 1)) = true.
Proof.
  intros Hn.
  assert (H : forallb (fun k => PrimFloat.leb
                                  (float_of_Z (Z.of_nat k + 300))
                                  (float_of_Z (Z.of_nat k + 300 + 1)))
                (seq 0 (Z.to_nat 9700)) = true) by (vm_compute; reflexivity).
  rewrite forallb_forall in H.
  specialize (H (Z.to_nat (n - 300))).
  replace (Z.of_nat (Z.to_nat (n - 300)) + 300) with n in H by lia.
  apply H, in_seq. lia.
Qed.

Lemma budget_mono (b b' : Z) :
  300 <= b -> b <= b' -> b' <= 10000 ->
  PrimFloat.leb (float_of_Z b) (float_of_Z b') = true.
Proof.
  intros Hb Hle Hb'.
  replace b' with (b + Z.of_nat (Z.to_nat (b' - b))) in * by lia.
  induction (Z.to_nat (b' - b)) as [|d IH].
  - rewrite Z.add_0_r, FloatAxioms.leb_spec. unfold SFleb.
    rewrite SFcompare_refl; [reflexivity|].
    assert (H : sf_pos_finite (Prim2SF (float_of_Z b)) = true)
      by (apply budget_pos_finite; lia).
    destruct (Prim2SF (float_of_Z b)); try discriminate. reflexivity.
  - apply (float_leb_trans _ (float_of_Z (b + Z.of_nat d))).
    + apply IH; lia.
    + replace (b + Z.of_nat (S d)) with (b + Z.of_nat d + 1) by lia.
      apply budget_step. lia.
Qed.

Lemma names_estimate (c c' : criteria) (col : loyer_col)
  (df : list data_row) :
  names (estimate c col df) = names (estimate c' col df).
Proof.
  unfold names, estimate. induction df as [|r t IH]; simpl; congruence.
Qed.

(** X9: raising the budget, within the bounds of its widget, changes
    neither the neighbourhoods shown nor their order, and a neighbourhood
    that was accessible stays accessible. *)
Theorem raising_budget_keeps_accessible (c : criteria) (col : loyer_col)
  (data : list data_row) (b' : Z) :
  300 <= budget c -> budget c <= b' -> b' <= 10000 ->
  exists qi qi',
    aggregate col (estimate c col (df_filtered c data)) = Ok qi /\
    aggregate col
      (estimate (with_budget c b') col (df_filtered (with_budget c b') data))
    = Ok qi' /\
    map fst qi' = map fst qi /\
    forall k i i', In (k, i) qi -> In (k, i') qi' ->
                   accessible i = true -> accessible i' = true.
Proof.
  intros Hb Hle Hb'.
  change (df_filtered (with_budget c b') data) with (df_filtered c data).
  set (dff := df_filtered c data).
  destruct (aggregate_ok col (estimate c col dff)) as [qi [Hrun [Hkeys Hsum]]].
  destruct (aggregate_ok col (estimate (with_budget c b') col dff))
    as [qi' [Hrun' [Hkeys' Hsum']]].
  exists qi, qi'. repeat split; auto.
  - rewrite Hkeys, Hkeys'. f_equal. apply names_estimate.
  - intros k i i' Hi Hi'.
    apply Hsum, summarise_fields in Hi as [-> _].
    apply Hsum', summarise_fields in Hi' as [-> _].
    rewrite !existsb_exists. intros [e [He Hin]].
    apply filter_In in He as [He Hn].
    apply In_estimate in He as [r [Hr ->]].
    exists (estimate_row (with_budget c b') col r). split.
    + apply filter_In. split; [apply In_estimate; eauto|exact Hn].
    + simpl in *. eapply float_leb_trans; [exact Hin|].
      now apply budget_mono.
Qed.

Lemma raising_budget_keeps_accessible_witness :
  exists qi qi',
    aggregate col_loyer_majore
      (estimate Sample.wish col_loyer_majore
         (df_filtered Sample.wish
            (map (@clean_row Ref.decoders) [Sample.studio; Sample.recent])))
    = Ok qi /\
    aggregate col_loyer_majore
      (estimate (with_budget Sample.wish 2000) col_loyer_majore
         (df_filtered (with_budget Sample.wish 2000)
            (map (@clean_row Ref.decoders) [Sample.studio; Sample.recent])))
    = Ok qi' /\
    map fst qi' = map fst qi /\
    forall k i i', In (k, i) qi -> In (k, i') qi' ->
                   accessible i = true -> accessible i' = true.
Proof.
  apply raising_budget_keeps_accessible; simpl; lia.
Defined.

(** ** Exceptions of the loop over the neighbourhoods *)

Lemma getitem_int_raises (o : pyobj) (n : nat) (e : exn) :
  getitem_int o n = Raise e -> e <> JSONDecodeError.
Proof.
  destruct o; simpl; try (intros H; inversion H; discriminate).
  - destruct (String.get n s); intros H; inversion H; discriminate.
  - destruct (nth_error l n); intros H; inversion H; discriminate.
Qed.

Lemma inverted_raises (p : pyobj) (e : exn) :
  inverted p = Raise e -> e <> JSONDecodeError.
Proof.
  unfold inverted.
  destruct (getitem_int p 1) as [lat|e1] eqn:E1; simpl.
  - destruct (getitem_int p 0) as [lon|e0] eqn:E0; simpl; [discriminate|].
    intros H. inversion H; subst. eapply getitem_int_raises; eauto.
  - intros H. inversion H; subst. eapply getitem_int_raises; eauto.
Qed.

Lemma comprehension_inverted_raises (points : list pyobj) (e : exn) :
  comprehension inverted points = Raise e -> e <> JSONDecodeError.
Proof.
  induction points as [|p t IH]; simpl; [discriminate|].
  destruct (inverted p) as [v|e1] eqn:E1; simpl.
  - destruct (comprehension inverted t) as [vs|e2]; simpl; [discriminate|].
    intros H. inversion H; subst. now apply IH.
  - intros H. inversion H; subst. eapply inverted_raises; eauto.
Qed.

Lemma points_inverted_raises (geo : pyobj) (e : exn) :
  points_inverted geo = Raise e -> e <> JSONDecodeError.
Proof.
  unfold points_inverted.
  destruct (getitem_int geo 0) as [g0|e0] eqn:E0; simpl.
  - destruct (py_iter g0) as [points|e1] eqn:E1; simpl.
    + apply comprehension_inverted_raises.
    + intros H. inversion H; subst.
      destruct g0; simpl in E1; inversion E1; discriminate.
  - intros H. inversion H; subst. eapply getitem_int_raises; eauto.
Qed.


Lemma render_ok (quartiers_info : list (string * info)) :
  forall m0 m, render quartiers_info m0 = Ok m ->
    exists m',
      m = m0 ++ m' /\
      map label m' = map fst (filter renderable quartiers_info) /\
      Forall (fun p => exists q i,
                  In (q, i) quartiers_info /\ label p = q /\
                  popup p = tooltip i /\
                  points_inverted (info_geo_points i) = Ok (locations p) /\
                  color p = if accessible i then green else red) m'.
Proof.
  induction quartiers_info as [|[q i] rest IH]; intros m0 m; simpl.
  - intros H. inversion H; subst. exists []. rewrite app_nil_r.
    repeat split. constructor.
  - unfold renderable at 1. simpl.
    destruct (points_inverted (info_geo_points i)) as [pts|e1] eqn:E1.
    + intros H. apply IH in H as [m' [-> [Hlab Hall]]].
      eexists (_ :: m'). rewrite <- app_assoc. simpl.
      split; [reflexivity|]. split; [now rewrite Hlab|].
      constructor.
      * exists q, i. simpl. repeat split; auto.
      * eapply Forall_impl; [|exact Hall].
        intros p [q' [i' [H1 H2]]]. exists q', i'. split; [now right|exact H2].
    + assert (Hrest : render rest m0 = Ok m ->
                      exists m', m = m0 ++ m' /\
                        map label m' = map fst (filter renderable rest) /\
                        Forall (fun p => exists q0 i0,
                          In (q0, i0) ((q, i) :: rest) /\ label p = q0 /\
                          popup p = tooltip i0 /\
                          points_inverted (info_geo_points i0)
                          = Ok (locations p) /\
                          color p = if accessible i0 then green else red) m').
      { intros H. apply IH in H as [m' [-> [Hlab Hall]]].
        exists m'. repeat split; auto.
        eapply Forall_impl; [|exact Hall].
        intros p [q' [i' [H1 H2]]]. exists q', i'. split; [now right|exact H2]. }
      destruct e1; try discriminate; exact Hrest.
Qed.

Lemma load_data_shown_nil {D : Decoders} (src : response) :
  fst (load_data src) <> [] -> snd (load_data src) = [].
Proof.
  destruct src as [| |df]; simpl; try congruence.
  unfold clean. destruct (filter_annee df) as [|r0 t] eqn:E; simpl;
    [congruence|].
  destruct (comprehension with_geo_points _); simpl; congruence.
Qed.

(** ** The script, case by case *)

Lemma unknown_label (l : string) :
  ~ In l loyer_options -> dict_get col_loyer_map l = Raise KeyError.
Proof.
  unfold loyer_options, col_loyer_map. cbn [dict_get In]. intros H.
  repeat match goal with
         | |- context [String.eqb ?k l] =>
             destruct (String.eqb_spec k l); [tauto|]
         end.
  reflexivity.
Qed.

Lemma rent_label_cases (l : string) :
  (In l loyer_options -> exists col, dict_get col_loyer_map l = Ok col) /\
  (~ In l loyer_options -> dict_get col_loyer_map l = Raise KeyError).
Proof.
  split; [|apply unknown_label].
  intros [<-|[<-|[<-|[]]]]; eexists; reflexivity.
Qed.

(** X10: the labels of the select box are keys of [col_loyer_map], so a
    label taken from the box always names a column. Any other label ends
    the script with [KeyError] as soon as the frame has a row; with an
    empty frame the label is not looked up and the script ends without a
    map and without an exception. *)
Theorem rent_label_lookup {D : Decoders} (src : response) (c : criteria) :
  (forall l, In l loyer_options ->
             exists col, dict_get col_loyer_map l = Ok col) /\
  (~ In (loyer_a_utiliser c) loyer_options ->
   fst (load_data src) <> [] ->
   script src c = (snd (load_data src), Raise KeyError)) /\
  (fst (load_data src) = [] -> snd (script src c) = Ok NoMap).
Proof.
  split; [|split].
  - intros l [<-|[<-|[<-|[]]]]; eexists; reflexivity.
  - intros Hl Hne. unfold script.
    destruct (load_data src) as [data shown]. simpl in *.
    unfold page. destruct data as [|r0 data]; [congruence|].
    rewrite (unknown_label _ Hl). now rewrite app_nil_r.
  - unfold script. destruct (load_data src) as [data shown]. simpl.
    now intros ->.
Qed.






Lemma df_filtered_no_era (c : criteria) (data : list data_row) :
  epoque_selection c = [] -> df_filtered c data = [].
Proof.
  intros Hsel. unfold df_filtered. rewrite Hsel.
  induction data as [|r t IH]; [reflexivity|].
  cbn [filter existsb]. now rewrite andb_false_r.
Qed.

(** X13: when the frame has rows but none matches the rental type and the
    eras selected, as is the case when no era is selected at all, the
    script shows the warning of line 137 alone, and no map. *)
Theorem no_match_warning {D : Decoders} (src : response) (c : criteria) :
  In (loyer_a_utiliser c) loyer_options ->
  fst (load_data src) <> [] ->
  epoque_selection c = [] \/ df_filtered c (fst (load_data src)) = [] ->
  script src c = ([Warning msg_no_match], Ok NoMap).
Proof.
  intros Hl Hne Hsel.
  assert (Hdf : df_filtered c (fst (load_data src)) = []).
  { destruct Hsel as [Hsel|Hsel]; [|exact Hsel].
    now apply df_filtered_no_era. }
  pose proof (load_data_shown_nil src Hne) as Hshown.
  unfold script. destruct (load_data src) as [data shown]. simpl in *.
  subst shown. unfold page. destruct data as [|r0 data]; [congruence|].
  destruct (proj1 (rent_label_cases (loyer_a_utiliser c)) Hl) as [col ->].
  now rewrite Hdf.
Qed.

Lemma no_match_warning_witness :
  @script Ref.decoders (Frame [Sample.two_rooms; Sample.studio])
    (mk_criteria 1500 30 "non meublé" [] "Loyers de référence")
  = ([Warning msg_no_match], Ok NoMap).
Proof.
  apply (@no_match_warning Ref.decoders).
  - right. left. reflexivity.
  - discriminate.
  - left. reflexivity.
Defined.

(** X14: one neighbourhood whose coordinates are a JSON object is enough
    for the loop to raise [KeyError]: no map is returned, whatever the
    geometry of the other neighbourhoods and wherever the entry stands. *)
Theorem object_coordinates_raise (quartiers_info : list (string * info))
  (m0 : list polygon) (q : string) (i : info)
  (kv : list (string * pyobj)) :
  In (q, i) quartiers_info -> info_geo_points i = PyDict kv ->
  render quartiers_info m0 = Raise KeyError.
Proof.
  revert m0. induction quartiers_info as [|[q' i'] rest IH]; intros m0 Hin;
    [contradiction|].
  intros Hgeo. simpl. destruct Hin as [Heq|Hin].
  - inversion Heq; subst. rewrite Hgeo. reflexivity.
  - destruct (points_inverted (info_geo_points i')) as [pts|e] eqn:E.
    + now apply IH.
    + apply points_inverted_raises in E.
      destruct e; try congruence; now apply IH.
Qed.

Lemma object_coordinates_raise_witness :
  render
    [("Quartier A"%string,
      mk_info true (mk_tooltip "Quartier A" []) Sample.polygon_coordinates);
     ("Quartier B"%string,
      mk_info true (mk_tooltip "Quartier B" [])
        (PyDict [("ring"%string, PyList Sample.ring)]))]
    []
  = Raise KeyError.
Proof.
  apply (object_coordinates_raise _ [] "Quartier B"
           (mk_info true (mk_tooltip "Quartier B" [])
              (PyDict [("ring"%string, PyList Sample.ring)]))
           [("ring"%string, PyList Sample.ring)]).
  - right. left. reflexivity.
  - reflexivity.
Defined.

(** ** The polygons *)

(** X15: when the script shows a map, every polygon on it stands for an
    entry of the mapping: it is labelled with the neighbourhood's name,
    carries its popup, has for locations what line 176 computed from its
    geometry, and is green exactly when the neighbourhood is accessible
    (red otherwise). *)
Theorem polygons_of_entries {D : Decoders} (src : response) (c : criteria)
  (quartiers_info : list (string * info)) (m : list polygon) :
  snd (script src c) = Ok (Map quartiers_info m) ->
  Forall (fun p => exists i,
              In (label p, i) quartiers_info /\
              popup p = tooltip i /\
              points_inverted (info_geo_points i) = Ok (locations p) /\
              (color p = green <-> accessible i = true) /\
              (color p = red <-> accessible i = false)) m.
Proof.
  intros H. apply script_map in H as [col [_ [_ Hr]]].
  apply render_ok in Hr as [m' [-> [_ Hall]]]. simpl.
  eapply Forall_impl; [|exact Hall].
  intros p [q [i [Hin [Hl [Hp [Hpts Hc]]]]]]. subst q.
  exists i. repeat split; auto; rewrite Hc;
    destruct (accessible i); congruence.
Qed.

Lemma polygons_of_entries_witness :
  Forall (fun p => exists i,
              In (label p, i)
                [("Quartier A"%string,
                  mk_info true
                    (mk_tooltip "Quartier A"
                       [mk_line_item 1 "Avant 1946" 40 1200 true;
                        mk_line_item 2 "Avant 1946" 60 1800 false])
                    Sample.polygon_coordinates)] /\
              popup p = tooltip i /\
              points_inverted (info_geo_points i) = Ok (locations p) /\
              (color p = green <-> accessible i = true) /\
              (color p = red <-> accessible i = false))
    [mk_polygon (map swap_axes Sample.ring) green "Quartier A"
       (mk_tooltip "Quartier A"
          [mk_line_item 1 "Avant 1946" 40 1200 true;
           mk_line_item 2 "Avant 1946" 60 1800 false])].
Proof.
  apply (@polygons_of_entries Ref.decoders
           (Frame [Sample.two_rooms; Sample.studio]) Sample.wish).
  reflexivity.
Defined.

Lemma sorted_filter_keys {V : Type} (p : string * V -> bool)
  (l : list (string * V)) :
  StronglySorted string_lt (map fst l) ->
  StronglySorted string_lt (map fst (filter p l)).
Proof.
  induction l as [|a t IH]; simpl; [constructor|].
  intros H. apply StronglySorted_inv in H as [Ht Ha].
  destruct (p a); simpl; [|now apply IH].
  constructor; [now apply IH|].
  rewrite Forall_forall in *. intros k Hk. apply Ha.
  apply in_map_iff in Hk as [x [<- Hx]]. apply in_map.
  now apply filter_In in Hx.
Qed.

(** X16: when the script shows a map, the polygons were added in strictly
    ascending order of neighbourhood name: at most one for a
    neighbourhood, and exactly for the neighbourhoods whose geometry went
    through line 176. *)
Theorem polygons_in_name_order {D : Decoders} (src : response) (c : criteria)
  (quartiers_info : list (string * info)) (m : list polygon) :
  snd (script src c) = Ok (Map quartiers_info m) ->
  StronglySorted string_lt (map label m) /\
  map label m = map fst (filter renderable quartiers_info).
Proof.
  intros H. apply script_map in H as [col [_ [Ha Hr]]].
  apply render_ok in Hr as [m' [-> [Hlab _]]]. simpl.
  split; [|exact Hlab]. rewrite Hlab. apply sorted_filter_keys.
  destruct (aggregate_ok col
              (estimate c col (df_filtered c (fst (load_data src)))))
    as [qi [Hrun [Hkeys _]]].
  rewrite Ha in Hrun. inversion Hrun; subst qi.
  rewrite Hkeys. apply sorted_keys_sorted.
Qed.

Lemma polygons_in_name_order_witness :
  StronglySorted string_lt
    (map label
       [mk_polygon (map swap_axes Sample.ring) green "Quartier A"
          (mk_tooltip "Quartier A"
             [mk_line_item 1 "Avant 1946" 40 1200 true]);
        mk_polygon (map swap_axes Sample.ring) green "Quartier B"
          (mk_tooltip "Quartier B"
             [mk_line_item 1 "Apres 1990" 36 1080 true])]) /\
  map label
    [mk_polygon (map swap_axes Sample.ring) green "Quartier A"
       (mk_tooltip "Quartier A"
          [mk_line_item 1 "Avant 1946" 40 1200 true]);
     mk_polygon (map swap_axes Sample.ring) green "Quartier B"
       (mk_tooltip "Quartier B"
          [mk_line_item 1 "Apres 1990" 36 1080 true])]
  = map fst
      (filter renderable
         [("Quartier A"%string,
           mk_info true
             (mk_tooltip "Quartier A"
                [mk_line_item 1 "Avant 1946" 40 1200 true])
             Sample.polygon_coordinates);
          ("Quartier B"%string,
           mk_info true
             (mk_tooltip "Quartier B"
                [mk_line_item 1 "Apres 1990" 36 1080 true])
             Sample.polygon_coordinates)]).
Proof.
  apply (@polygons_in_name_order Ref.decoders
           (Frame [Sample.recent; Sample.studio])
           (mk_criteria 1500 30 "non meublé"
              ["Apres 1990"%string; "Avant 1946"%string]
              "Loyers de référence majorés")).
  reflexivity.
Defined.

(** ** The sidebar *)

Lemma In_unique (x : string) (l : list string) : In x (unique l) <-> In x l.
Proof.
  induction l as [|a t IH]; simpl; [reflexivity|].
  rewrite filter_In, IH, negb_true_iff, String.eqb_neq.
  destruct (string_dec a x); intuition.
Qed.

Lemma NoDup_unique (l : list string) : NoDup (unique l).
Proof.
  induction l as [|a t IH]; simpl; constructor.
  - rewrite filter_In, negb_true_iff, String.eqb_neq. tauto.
  - now apply NoDup_filter.
Qed.

Lemma string_leb_cases (a b : string) :
  String.leb a b = true <-> a = b \/ string_lt a b.
Proof.
  unfold String.leb, string_lt.
  destruct (String.compare a b) eqn:E.
  - apply String.compare_eq_iff in E. intuition.
  - intuition.
  - split; [discriminate|]. intros [->|H]; [|discriminate].
    now rewrite string_compare_refl in E.
Qed.

Lemma string_leb_trans (a b c : string) :
  String.leb a b = true -> String.leb b c = true -> String.leb a c = true.
Proof.
  rewrite !string_leb_cases. unfold string_lt.
  intros [->|H1] [->|H2]; auto.
  right. eapply string_compare_lt_trans; eauto.
Qed.

Lemma leb_sorted_strict (l : list string) :
  StronglySorted (fun a b => String.leb a b = true) l -> NoDup l ->
  StronglySorted string_lt l.
Proof.
  induction 1 as [|a t Hs IH Ha]; intros Hnd; constructor.
  - apply IH. now inversion Hnd.
  - inversion Hnd as [|? ? Hnotin _]; subst.
    rewrite Forall_forall in *. intros x Hx.
    destruct (proj1 (string_leb_cases a x) (Ha x Hx)) as [->|H];
      [contradiction|exact H].
Qed.

Lemma py_sorted_unique (l : list string) :
  StronglySorted string_lt (py_sorted (unique l)) /\
  forall x, In x (py_sorted (unique l)) <-> In x l.
Proof.
  unfold py_sorted.
  pose proof (stable_sort_perm String.leb (unique l)) as Hperm.
  pose proof (stable_sort_sorted String.leb String.leb_total
                string_leb_trans (unique l)) as Hs.
  pose proof (Permutation_NoDup Hperm (NoDup_unique l)) as Hnd.
  split.
  - apply leb_sorted_strict; [exact Hs|exact Hnd].
  - intros x. rewrite <- (In_unique x l). split.
    + apply (Permutation_in x (Permutation_sym Hperm)).
    + apply (Permutation_in x Hperm).
Qed.

(** X17: the options of the rental-type radio and of the era multiselect
    are exactly the values found in the frame, each once, in strictly
    ascending order. *)
Theorem sidebar_options (data : list data_row) :
  StronglySorted string_lt (type_loc_options data) /\
  (forall t, In t (type_loc_options data) <->
             exists r, In r data /\ type_location r = t) /\
  StronglySorted string_lt (epoques_options data) /\
  (forall e, In e (epoques_options data) <->
             exists r, In r data /\ epoque_construction r = e).
Proof.
  unfold type_loc_options, epoques_options.
  destruct (py_sorted_unique (map type_location data)) as [Hs1 Hi1].
  destruct (py_sorted_unique (map epoque_construction data)) as [Hs2 Hi2].
  repeat split; auto.
  - intros H. apply Hi1, in_map_iff in H as [r [H1 H2]]. eauto.
  - intros [r [H1 H2]]. apply Hi1, in_map_iff. eauto.
  - intros H. apply Hi2, in_map_iff in H as [r [H1 H2]]. eauto.
  - intros [r [H1 H2]]. apply Hi2, in_map_iff. eauto.
Qed.



(** ** The estimate is a number *)

(** X19: for the frame that [load_data] returns and a surface within the
    bounds of its widget, no estimated rent is NaN: the flag
    [dans_le_budget] always comes from comparing a number with the
    budget, and no line of a popup shows NaN. *)
Theorem estimate_never_nan {D : Decoders} (src : response) (c : criteria)
  (col : loyer_col) (e : est_row) :
  10 <= surface c <= 200 ->
  In e (estimate c col (df_filtered c (fst (load_data src)))) ->
  PrimFloat.is_nan (loyer_estime e) = false /\
  PrimFloat.is_nan (item_loyer_estime (line_of col e)) = false /\
  PrimFloat.is_nan (item_loyer_m2 (line_of col e)) = false.
Proof.
  intros Hs He. apply In_estimate in He as [r [Hr ->]].
  apply In_df_filtered in Hr as [Hr _].
  pose proof (load_data_not_nan src col r Hr) as Hn. simpl.
  repeat split; auto; now apply mul_surface_not_nan.
Qed.

Lemma estimate_never_nan_witness :
  PrimFloat.is_nan
    (loyer_estime
       (estimate_row Sample.wish col_loyer_majore
          (@clean_row Ref.decoders Sample.studio))) = false /\
  PrimFloat.is_nan
    (item_loyer_estime
       (line_of col_loyer_majore
          (estimate_row Sample.wish col_loyer_majore
             (@clean_row Ref.decoders Sample.studio)))) = false /\
  PrimFloat.is_nan
    (item_loyer_m2
       (line_of col_loyer_majore
          (estimate_row Sample.wish col_loyer_majore
             (@clean_row Ref.decoders Sample.studio)))) = false.
Proof.
  apply (@estimate_never_nan Ref.decoders (Frame [Sample.studio])
           Sample.wish).
  - simpl. lia.
  - left. reflexivity.
Defined.
